(** * Data consistency layer of the cricket prediction system

    Shallow embedding of [src/utils/helpers/data_consistency.py] (class
    [DataConsistency]) and the properties of its five static methods.

    Python values are the JSON-shaped values the methods receive.  Numbers
    are taken with their exact rational value: an [int] is a [Z], a [float]
    is a [Q] kept in lowest terms, and [round(x, n)] rounds the exact value
    half-to-even, as CPython does on the exact value of a double.  Records
    are insertion-ordered dictionaries with string keys.  The data is
    tree-shaped, as decoded JSON is: no two positions share one object. *)

From Stdlib Require Import ZArith QArith Qround Qabs Lqa Lia Bool List String Ascii.
Import ListNotations.

Local Open Scope string_scope.
Local Open Scope Z_scope.
Local Open Scope Q_scope.

(** ** Python values and exceptions *)

#[warnings="-register-all"]
Inductive value : Type :=
| VNone
| VBool (b : bool)
| VInt (n : Z)
| VFloat (q : Q)
| VStr (s : string)
| VList (items : list value)
| VDict (entries : list (string * value)).

Definition dict : Type := list (string * value).

Inductive exn : Type :=
| TypeError
| AttributeError
| KeyError
| IndexError
| ZeroDivisionError.

Inductive res (A : Type) : Type :=
| Ok (a : A)
| Raise (e : exn).

Arguments Ok {A} a.
Arguments Raise {A} e.

Definition bind {A B : Type} (m : res A) (k : A -> res B) : res B :=
  match m with
  | Ok a => k a
  | Raise e => Raise e
  end.

Notation "x <- m ;; k" := (bind m (fun x => k))
  (at level 61, m at next level, right associativity).
Notation "' pat <- m ;; k" := (bind m (fun x => match x with pat => k end))
  (at level 61, pat pattern, m at next level, right associativity).

(** ** Dictionaries *)

Module Dict.

Fixpoint get (d : dict) (k : string) : option value :=
  match d with
  | [] => None
  | (k', v) :: d' => if String.eqb k k' then Some v else get d' k
  end.

(** [d.get(k, default)] *)
Definition get_default (d : dict) (k : string) (default : value) : value :=
  match get d k with
  | Some v => v
  | None => default
  end.

(** [k in d] *)
Definition mem (d : dict) (k : string) : bool :=
  match get d k with
  | Some _ => true
  | None => false
  end.

(** [d[k] = v]: an existing key keeps its position, a new key goes last. *)
Fixpoint set (d : dict) (k : string) (v : value) : dict :=
  match d with
  | [] => [(k, v)]
  | (k', v') :: d' =>
      if String.eqb k k' then (k', v) :: d' else (k', v') :: set d' k v
  end.

(** [d.update(other)] *)
Definition update (d : dict) (other : dict) : dict :=
  fold_left (fun acc kv => set acc (fst kv) (snd kv)) other d.

Definition keys (d : dict) : list string := map fst d.

End Dict.

(** ** Numbers *)

(** The numeric value of an [int], [float] or [bool]. *)
Definition as_num (v : value) : option Q :=
  match v with
  | VBool b => Some (if b then 1 else 0)
  | VInt n => Some (inject_Z n)
  | VFloat q => Some q
  | _ => None
  end.

(** The integer value of an [int] or [bool]. *)
Definition as_int (v : value) : option Z :=
  match v with
  | VBool b => Some (if b then 1 else 0)%Z
  | VInt n => Some n
  | _ => None
  end.

Definition is_numeric (v : value) : bool :=
  match as_num v with
  | Some _ => true
  | None => false
  end.

Definition Qltb (x y : Q) : bool :=
  match x ?= y with
  | Lt => true
  | _ => false
  end.

(** Rounding of an exact rational to the nearest integer, ties to even. *)
Definition round_half_even (q : Q) : Z :=
  let n := Qnum q in
  let d := Zpos (Qden q) in
  let f := (n / d)%Z in
  match (2 * (n mod d) ?= d)%Z with
  | Lt => f
  | Gt => (f + 1)%Z
  | Eq => if Z.even f then f else (f + 1)%Z
  end.

(** [round(x, ndigits)] on the exact value of a float. *)
Definition round_to (ndigits : nat) (q : Q) : Q :=
  let scale := (10 ^ Z.of_nat ndigits)%Z in
  Qred (inject_Z (round_half_even (q * inject_Z scale)) / inject_Z scale).

(** A decimal literal: [decimal n k] is [n / 10^k] in lowest terms. *)
Definition decimal (n : Z) (k : nat) : Q :=
  Qred (inject_Z n / inject_Z (10 ^ Z.of_nat k)).

(** ** Strings *)

Definition lower_ascii (c : ascii) : ascii :=
  let n := nat_of_ascii c in
  if (Nat.leb 65 n && Nat.leb n 90)%bool then ascii_of_nat (n + 32) else c.

Definition upper_ascii (c : ascii) : ascii :=
  let n := nat_of_ascii c in
  if (Nat.leb 97 n && Nat.leb n 122)%bool then ascii_of_nat (n - 32) else c.

Fixpoint map_string (f : ascii -> ascii) (s : string) : string :=
  match s with
  | EmptyString => EmptyString
  | String c s' => String (f c) (map_string f s')
  end.

(** [s.lower()] and [s.upper()], on the ASCII letters. *)
Definition lower (s : string) : string := map_string lower_ascii s.
Definition upper (s : string) : string := map_string upper_ascii s.

(** [pat in s] for two strings. *)
Fixpoint contains (pat s : string) : bool :=
  (String.prefix pat s ||
   match s with
   | EmptyString => false
   | String _ s' => contains pat s'
   end)%bool.

Fixpoint repeat_string (n : nat) (s : string) : string :=
  match n with
  | O => EmptyString
  | S n' => s ++ repeat_string n' s
  end.

Fixpoint repeat_list {A : Type} (n : nat) (l : list A) : list A :=
  match n with
  | O => []
  | S n' => l ++ repeat_list n' l
  end.

(** ** Operators *)

(** [a == b] *)
Fixpoint py_eq (a b : value) {struct a} : bool :=
  match a, b with
  | VNone, VNone => true
  | VStr s, VStr t => String.eqb s t
  | VList l, VList m =>
      (fix go (l m : list value) : bool :=
         match l, m with
         | [], [] => true
         | x :: l', y :: m' => (py_eq x y && go l' m')%bool
         | _, _ => false
         end) l m
  | VDict d, VDict e =>
      (Nat.eqb (List.length d) (List.length e) &&
       (fix go (d : list (string * value)) : bool :=
          match d with
          | [] => true
          | (k, v) :: d' =>
              (match Dict.get e k with
               | Some w => py_eq v w
               | None => false
               end && go d')%bool
          end) d)%bool
  | _, _ =>
      match as_num a, as_num b with
      | Some x, Some y => Qeq_bool x y
      | _, _ => false
      end
  end.

(** [a < b]; numbers with numbers, strings with strings, lists with lists. *)
Fixpoint py_lt (a b : value) {struct a} : res bool :=
  match a, b with
  | VStr s, VStr t => Ok (String.ltb s t)
  | VList l, VList m =>
      (fix go (l m : list value) : res bool :=
         match l, m with
         | _, [] => Ok false
         | [], _ :: _ => Ok true
         | x :: l', y :: m' => if py_eq x y then go l' m' else py_lt x y
         end) l m
  | _, _ =>
      match as_num a, as_num b with
      | Some x, Some y => Ok (Qltb x y)
      | _, _ => Raise TypeError
      end
  end.

(** [a > b] *)
Fixpoint py_gt (a b : value) {struct a} : res bool :=
  match a, b with
  | VStr s, VStr t => Ok (String.ltb t s)
  | VList l, VList m =>
      (fix go (l m : list value) : res bool :=
         match l, m with
         | [], _ => Ok false
         | _ :: _, [] => Ok true
         | x :: l', y :: m' => if py_eq x y then go l' m' else py_gt x y
         end) l m
  | _, _ =>
      match as_num a, as_num b with
      | Some x, Some y => Ok (Qltb y x)
      | _, _ => Raise TypeError
      end
  end.

(** [max(a, b)]: the second argument wins only when it is strictly greater. *)
Definition py_max (a b : value) : res value :=
  c <- py_gt b a ;; Ok (if c then b else a).

(** [min(a, b)]: the second argument wins only when it is strictly smaller. *)
Definition py_min (a b : value) : res value :=
  c <- py_lt b a ;; Ok (if c then b else a).

(** [a + b] *)
Definition py_add (a b : value) : res value :=
  match a, b with
  | VStr s, VStr t => Ok (VStr (s ++ t))
  | VList l, VList m => Ok (VList (l ++ m))
  | _, _ =>
      match as_int a, as_int b with
      | Some x, Some y => Ok (VInt (x + y))
      | _, _ =>
          match as_num a, as_num b with
          | Some x, Some y => Ok (VFloat (Qred (x + y)))
          | _, _ => Raise TypeError
          end
      end
  end.

(** [a * b]; a string or list times an [int] is a repetition. *)
Definition py_mul (a b : value) : res value :=
  match as_int a, as_int b with
  | Some x, Some y => Ok (VInt (x * y))
  | _, _ =>
      match as_num a, as_num b with
      | Some x, Some y => Ok (VFloat (Qred (x * y)))
      | _, _ =>
          match a, as_int b, as_int a, b with
          | VStr s, Some n, _, _ => Ok (VStr (repeat_string (Z.to_nat n) s))
          | VList l, Some n, _, _ => Ok (VList (repeat_list (Z.to_nat n) l))
          | _, _, Some n, VStr s => Ok (VStr (repeat_string (Z.to_nat n) s))
          | _, _, Some n, VList l => Ok (VList (repeat_list (Z.to_nat n) l))
          | _, _, _, _ => Raise TypeError
          end
      end
  end.

(** [a / b]: true division, always a float. *)
Definition py_truediv (a b : value) : res value :=
  match as_num a, as_num b with
  | Some x, Some y =>
      if Qeq_bool y 0 then Raise ZeroDivisionError else Ok (VFloat (Qred (x / y)))
  | _, _ => Raise TypeError
  end.

(** [round(a, ndigits)]: an [int] is returned as it is. *)
Definition py_round (a : value) (ndigits : nat) : res value :=
  match a with
  | VFloat q => Ok (VFloat (round_to ndigits q))
  | _ =>
      match as_int a with
      | Some n => Ok (VInt n)
      | None => Raise TypeError
      end
  end.

(** Truth value of [a] in an [if]. *)
Definition truthy (a : value) : bool :=
  match a with
  | VNone => false
  | VBool b => b
  | VInt n => negb (Z.eqb n 0)
  | VFloat q => negb (Qeq_bool q 0)
  | VStr s => negb (String.eqb s "")
  | VList l => match l with [] => false | _ => true end
  | VDict d => match d with [] => false | _ => true end
  end.

(** The receiver of [.get], [.keys()] and [.items()] must be a dictionary. *)
Definition as_dict (a : value) : res dict :=
  match a with
  | VDict d => Ok d
  | _ => Raise AttributeError
  end.

(** [a.lower()] *)
Definition py_lower (a : value) : res string :=
  match a with
  | VStr s => Ok (lower s)
  | _ => Raise AttributeError
  end.

(** [k in a] for a string key [k]. *)
Definition py_in (k : string) (a : value) : res bool :=
  match a with
  | VDict d => Ok (Dict.mem d k)
  | VStr s => Ok (contains k s)
  | VList l => Ok (existsb (py_eq (VStr k)) l)
  | _ => Raise TypeError
  end.

(** [a[k]] for a string key [k]. *)
Definition py_getitem (a : value) (k : string) : res value :=
  match a with
  | VDict d =>
      match Dict.get d k with
      | Some v => Ok v
      | None => Raise KeyError
      end
  | _ => Raise TypeError
  end.

(** The items visited by [for x in a], also counted by [len(a)]. *)
Definition py_iter (a : value) : res (list value) :=
  match a with
  | VList l => Ok l
  | VStr s => Ok (map (fun c => VStr (String c EmptyString)) (list_ascii_of_string s))
  | VDict d => Ok (map VStr (Dict.keys d))
  | _ => Raise TypeError
  end.

(** ** The class [DataConsistency] *)

(** Messages sent to the module's logger. *)
Inductive warning : Type :=
| WrongTeamSize (n : nat)
| CaptainNotInTeam (captain : value)
| ViceCaptainNotInTeam (vice_captain : value).

Module DataConsistency.

Definition ensure_batting_consistency (batting_data : dict) : res dict :=
  (* Extract key metrics *)
  let runs := Dict.get_default batting_data "expected_runs" (VInt 0) in
  let balls := Dict.get_default batting_data "expected_balls" (VInt 0) in
  let strike_rate := Dict.get_default batting_data "expected_strike_rate" (VInt 0) in
  let fours := Dict.get_default batting_data "expected_fours" (VInt 0) in
  let sixes := Dict.get_default batting_data "expected_sixes" (VInt 0) in
  (* 1. Strike rate = (runs / balls) * 100 *)
  '(balls, strike_rate) <-
    (c <- py_gt balls (VInt 0) ;;
     if c then
       q <- py_truediv runs balls ;;
       sr <- py_mul q (VInt 100) ;;
       Ok (balls, sr)
     else
       c' <- py_gt strike_rate (VInt 0) ;;
       if c' then
         q <- py_truediv runs strike_rate ;;
         b <- py_mul q (VInt 100) ;;
         Ok (b, strike_rate)
       else Ok (balls, strike_rate)) ;;
  (* 2. Ensure boundary runs don't exceed total runs *)
  f4 <- py_mul fours (VInt 4) ;;
  s6 <- py_mul sixes (VInt 6) ;;
  boundary_runs <- py_add f4 s6 ;;
  '(fours, sixes) <-
    (c <- py_gt boundary_runs runs ;;
     if c then
       m <- py_max (VInt 1) boundary_runs ;;
       scale_factor <- py_truediv runs m ;;
       fours' <- py_mul fours scale_factor ;;
       sixes' <- py_mul sixes scale_factor ;;
       Ok (fours', sixes')
     else Ok (fours, sixes)) ;;
  (* 3. Ensure non-zero values for key metrics *)
  runs <- py_max (VInt 0) runs ;;
  balls <- py_max (VInt 1) balls ;;
  strike_rate <- py_max (VInt 0) strike_rate ;;
  fours <- py_max (VInt 0) fours ;;
  sixes <- py_max (VInt 0) sixes ;;
  (* Update data *)
  r_runs <- py_round runs 1 ;;
  r_balls <- py_round balls 1 ;;
  r_strike_rate <- py_round strike_rate 1 ;;
  r_fours <- py_round fours 1 ;;
  r_sixes <- py_round sixes 1 ;;
  Ok (Dict.update batting_data
        [("expected_runs", r_runs);
         ("expected_balls", r_balls);
         ("expected_strike_rate", r_strike_rate);
         ("expected_fours", r_fours);
         ("expected_sixes", r_sixes)]).

Definition ensure_bowling_consistency (bowling_data : dict) (format_type : string)
  : res dict :=
  (* Extract key metrics *)
  let overs := Dict.get_default bowling_data "expected_overs" (VInt 0) in
  let economy := Dict.get_default bowling_data "expected_economy" (VInt 0) in
  let wickets := Dict.get_default bowling_data "expected_wickets" (VInt 0) in
  let runs_conceded := Dict.get_default bowling_data "expected_runs_conceded" (VInt 0) in
  (* 1. Runs conceded = economy * overs *)
  '(economy, runs_conceded) <-
    (c1 <- py_gt overs (VInt 0) ;;
     c2 <- (if c1 then py_gt economy (VInt 0) else Ok false) ;;
     if c2 then
       rc <- py_mul economy overs ;;
       Ok (economy, rc)
     else
       c3 <- py_gt runs_conceded (VInt 0) ;;
       c4 <- (if c3 then py_gt overs (VInt 0) else Ok false) ;;
       if c4 then
         e <- py_truediv runs_conceded overs ;;
         Ok (e, runs_conceded)
       else Ok (economy, runs_conceded)) ;;
  (* 2. Ensure format-specific constraints *)
  overs <-
    (if String.eqb (upper format_type) "T20I" then py_min overs (VInt 4)
     else if String.eqb (upper format_type) "ODI" then py_min overs (VInt 10)
     else Ok overs) ;;
  (* 3. Ensure non-zero values for key metrics *)
  overs <- py_max (VInt 0) overs ;;
  economy <- py_max (VInt 0) economy ;;
  wickets <- py_max (VInt 0) wickets ;;
  runs_conceded <- py_max (VInt 0) runs_conceded ;;
  (* Update data *)
  r_overs <- py_round overs 1 ;;
  r_economy <- py_round economy 1 ;;
  r_wickets <- py_round wickets 1 ;;
  r_runs_conceded <- py_round runs_conceded 1 ;;
  Ok (Dict.update bowling_data
        [("expected_overs", r_overs);
         ("expected_economy", r_economy);
         ("expected_wickets", r_wickets);
         ("expected_runs_conceded", r_runs_conceded)]).

(** One of the six blocks of [ensure_player_role_consistency]:
    [if section in prediction: x = prediction[section].get(field, 0);
     if test(x): prediction[section][field] = limit(x)]. *)
Definition adjust_field (prediction : dict) (section field : string)
    (test : value -> res bool) (limit : value -> res value) : res dict :=
  if Dict.mem prediction section then
    sub <- as_dict (Dict.get_default prediction section VNone) ;;
    let x := Dict.get_default sub field (VInt 0) in
    c <- test x ;;
    if c then
      y <- limit x ;;
      Ok (Dict.set prediction section (VDict (Dict.set sub field y)))
    else Ok prediction
  else Ok prediction.

Definition ensure_player_role_consistency (player_data prediction : dict)
  : res dict :=
  (* Get player role *)
  info <- as_dict (Dict.get_default player_data "personalInformation" (VDict [])) ;;
  role <- py_lower (Dict.get_default info "role" (VStr "")) ;;
  (* Adjust prediction based on role *)
  if contains "batsman" role then
    prediction <- adjust_field prediction "batting" "expected_runs"
                    (fun runs => py_lt runs (VInt 20))
                    (fun runs => py_max runs (VInt 20)) ;;
    adjust_field prediction "bowling" "expected_wickets"
      (fun wickets => py_gt wickets (VFloat (1 # 2)))
      (fun wickets => py_min wickets (VFloat (1 # 2)))
  else if contains "bowler" role then
    prediction <- adjust_field prediction "batting" "expected_runs"
                    (fun runs => py_gt runs (VInt 15))
                    (fun runs => py_min runs (VInt 15)) ;;
    adjust_field prediction "bowling" "expected_wickets"
      (fun wickets => py_lt wickets (VInt 1))
      (fun wickets => py_max wickets (VInt 1))
  else if (contains "all-rounder" role || contains "all rounder" role)%bool then
    prediction <- adjust_field prediction "batting" "expected_runs"
                    (fun runs => py_lt runs (VInt 15))
                    (fun runs => py_max runs (VInt 15)) ;;
    adjust_field prediction "bowling" "expected_wickets"
      (fun wickets => py_lt wickets (VFloat (1 # 2)))
      (fun wickets => py_max wickets (VFloat (1 # 2)))
  else Ok prediction.

(** [any(p.get('name', '') == who for p in players)] *)
Fixpoint any_named (players : list value) (who : value) : res bool :=
  match players with
  | [] => Ok false
  | p :: rest =>
      d <- as_dict p ;;
      if py_eq (Dict.get_default d "name" (VStr "")) who then Ok true
      else any_named rest who
  end.

(** [players[i].get('name', '')] *)
Definition name_at (players : list value) (i : nat) : res value :=
  match nth_error players i with
  | Some p => d <- as_dict p ;; Ok (Dict.get_default d "name" (VStr ""))
  | None => Raise IndexError
  end.

(** The body of the loop over the players: the player's [performance]
    dictionary, when it has one, is updated in place. *)
Definition reconcile_player (format_type : string) (player : value) : res value :=
  p <- as_dict player ;;
  let performance := Dict.get_default p "performance" (VDict []) in
  has_batting <- py_in "batting" performance ;;
  performance <-
    (if has_batting then
       b <- py_getitem performance "batting" ;;
       b <- as_dict b ;;
       b <- ensure_batting_consistency b ;;
       perf <- as_dict performance ;;
       Ok (VDict (Dict.set perf "batting" (VDict b)))
     else Ok performance) ;;
  has_bowling <- py_in "bowling" performance ;;
  performance <-
    (if has_bowling then
       b <- py_getitem performance "bowling" ;;
       b <- as_dict b ;;
       b <- ensure_bowling_consistency b format_type ;;
       perf <- as_dict performance ;;
       Ok (VDict (Dict.set perf "bowling" (VDict b)))
     else Ok performance) ;;
  Ok (if Dict.mem p "performance"
      then VDict (Dict.set p "performance" performance)
      else player).

Fixpoint reconcile_players (format_type : string) (players : list value)
  : res (list value) :=
  match players with
  | [] => Ok []
  | p :: rest =>
      p' <- reconcile_player format_type p ;;
      rest' <- reconcile_players format_type rest ;;
      Ok (p' :: rest')
  end.

(** The result comes with the warnings logged by a completed call. *)
Definition ensure_fantasy_team_consistency (fantasy_team : dict) (format_type : string)
  : res (dict * list warning) :=
  (* Ensure we have exactly 11 players *)
  let players_obj := Dict.get_default fantasy_team "players" (VList []) in
  players <- py_iter players_obj ;;
  let log1 := if Nat.eqb (List.length players) 11 then []
              else [WrongTeamSize (List.length players)] in
  (* Ensure captain and vice-captain are in the team *)
  let captain := Dict.get_default fantasy_team "captain" (VStr "") in
  let vice_captain := Dict.get_default fantasy_team "vice_captain" (VStr "") in
  captain_in_team <- any_named players captain ;;
  vice_captain_in_team <- any_named players vice_captain ;;
  '(fantasy_team, log2) <-
    (if (negb captain_in_team && truthy players_obj)%bool then
       n <- name_at players 0 ;;
       Ok (Dict.set fantasy_team "captain" n, [CaptainNotInTeam captain])
     else Ok (fantasy_team, [])) ;;
  '(fantasy_team, log3) <-
    (if (negb vice_captain_in_team && Nat.ltb 1 (List.length players))%bool then
       n <- name_at players 1 ;;
       Ok (Dict.set fantasy_team "vice_captain" n, [ViceCaptainNotInTeam vice_captain])
     else Ok (fantasy_team, [])) ;;
  (* Ensure player performances are consistent *)
  players' <- reconcile_players format_type players ;;
  Ok (match players_obj with
      | VList _ =>
          if Dict.mem fantasy_team "players"
          then Dict.set fantasy_team "players" (VList players')
          else fantasy_team
      | _ => fantasy_team
      end,
      (log1 ++ log2 ++ log3)%list).

(** Lines 232-255: the win probabilities. *)
Definition normalize_probabilities (match_prediction : dict) : res dict :=
  prediction <- as_dict (Dict.get_default match_prediction "prediction" (VDict [])) ;;
  let team_probs := Dict.get_default prediction "team_probabilities" (VDict []) in
  if truthy team_probs then
    probs <- as_dict team_probs ;;
    match Dict.keys probs with
    | [team1; team2] =>
        let prob1 := Dict.get_default probs team1 (VFloat (1 # 2)) in
        let prob2 := Dict.get_default probs team2 (VFloat (1 # 2)) in
        (* Normalize probabilities *)
        total_prob <- py_add prob1 prob2 ;;
        c <- py_gt total_prob (VInt 0) ;;
        '(prob1, prob2) <-
          (if c then
             p1 <- py_truediv prob1 total_prob ;;
             p2 <- py_truediv prob2 total_prob ;;
             Ok (p1, p2)
           else Ok (VFloat (1 # 2), VFloat (1 # 2))) ;;
        (* Update probabilities *)
        r1 <- py_round prob1 3 ;;
        let probs := Dict.set probs team1 r1 in
        r2 <- py_round prob2 3 ;;
        let probs := Dict.set probs team2 r2 in
        (* Update win probability *)
        m <- py_max prob1 prob2 ;;
        w <- py_round m 3 ;;
        let prediction := Dict.set prediction "team_probabilities" (VDict probs) in
        let prediction := Dict.set prediction "win_probability" w in
        Ok (Dict.set match_prediction "prediction" (VDict prediction))
    | _ => Ok match_prediction
    end
  else Ok match_prediction.

(** The loop over [expected_scores.items()]. *)
Fixpoint clamp_scores (format_type : string) (scores : dict) : res dict :=
  match scores with
  | [] => Ok []
  | (team, score) :: rest =>
      score' <-
        (if String.eqb (upper format_type) "T20I" then
           m <- py_min score (VInt 220) ;; py_max (VInt 120) m
         else if String.eqb (upper format_type) "ODI" then
           m <- py_min score (VInt 350) ;; py_max (VInt 200) m
         else Ok score) ;;
      rest' <- clamp_scores format_type rest ;;
      Ok ((team, score') :: rest')
  end.

(** Lines 257-266: the expected scores. *)
Definition clamp_expected_scores (match_prediction : dict) (format_type : string)
  : res dict :=
  let expected_scores := Dict.get_default match_prediction "expected_scores" (VDict []) in
  if truthy expected_scores then
    scores <- as_dict expected_scores ;;
    scores' <- clamp_scores format_type scores ;;
    Ok (Dict.set match_prediction "expected_scores" (VDict scores'))
  else Ok match_prediction.

Definition ensure_match_prediction_consistency (match_prediction : dict)
    (format_type : string) : res dict :=
  match_prediction <- normalize_probabilities match_prediction ;;
  clamp_expected_scores match_prediction format_type.

End DataConsistency.

Import DataConsistency.

(** * Reading records

    The vocabulary in which the properties are stated. *)

(** [denotes v x]: the value [v] is a number equal to [x]. *)
Definition denotes (v : value) (x : Q) : Prop :=
  exists q, as_num v = Some q /\ q == x.

(** [reads d k q]: the record [d] holds the number [q] under the key [k]. *)
Definition reads (d : dict) (k : string) (q : Q) : Prop :=
  exists v, Dict.get d k = Some v /\ as_num v = Some q.

(** The number read by [d.get(k, 0)]. *)
Definition qfield (d : dict) (k : string) : Q :=
  match as_num (Dict.get_default d k (VInt 0)) with
  | Some q => q
  | None => 0
  end.

(** Every listed field is absent or holds a number. *)
Definition numeric_fields (keys : list string) (d : dict) : bool :=
  forallb (fun k => is_numeric (Dict.get_default d k (VInt 0))) keys.

Definition batting_keys : list string :=
  ["expected_runs"; "expected_balls"; "expected_strike_rate";
   "expected_fours"; "expected_sixes"].

Definition bowling_keys : list string :=
  ["expected_overs"; "expected_economy"; "expected_wickets";
   "expected_runs_conceded"].

(** [max(x, y)] and [min(x, y)] on exact numbers. *)
Definition qmax (x y : Q) : Q := if Qltb x y then y else x.
Definition qmin (x y : Q) : Q := if Qltb y x then y else x.

(** The numbers computed by [ensure_batting_consistency] before the final
    clamping and rounding, as functions of the numbers read. *)
Definition batting_strike_rate (runs balls strike_rate : Q) : Q :=
  if Qltb 0 balls then runs / balls * 100 else strike_rate.

Definition batting_balls (runs balls strike_rate : Q) : Q :=
  if Qltb 0 balls then balls
  else if Qltb 0 strike_rate then runs / strike_rate * 100
  else balls.

Definition boundary_runs (fours sixes : Q) : Q := fours * 4 + sixes * 6.

Definition scaled (runs fours sixes v : Q) : Q :=
  if Qltb runs (boundary_runs fours sixes)
  then v * (runs / qmax 1 (boundary_runs fours sixes))
  else v.

(** The numbers computed by [ensure_bowling_consistency] before the final
    clamping and rounding. *)
Definition bowling_runs_conceded (overs economy runs_conceded : Q) : Q :=
  if (Qltb 0 overs && Qltb 0 economy)%bool then economy * overs else runs_conceded.

Definition bowling_economy (overs economy runs_conceded : Q) : Q :=
  if (Qltb 0 overs && Qltb 0 economy)%bool then economy
  else if (Qltb 0 runs_conceded && Qltb 0 overs)%bool then runs_conceded / overs
  else economy.

Definition capped_overs (format_type : string) (overs : Q) : Q :=
  if String.eqb (upper format_type) "T20I" then qmin overs 4
  else if String.eqb (upper format_type) "ODI" then qmin overs 10
  else overs.

(** ** Properties of a batting record *)

(** The boundary runs stay within the runs, up to a tolerance. *)
Definition boundary_invariant (tolerance : Q) (d : dict) : Prop :=
  qfield d "expected_fours" * 4 + qfield d "expected_sixes" * 6
  <= qfield d "expected_runs" + tolerance.


(** A value with at most one decimal. *)
Definition one_decimal (q : Q) : Prop := exists z : Z, q * 10 == inject_Z z.

(** A record that already satisfies the invariants of the data model. *)
Definition batting_consistent (d : dict) : Prop :=
  0 <= qfield d "expected_runs" /\
  1 <= qfield d "expected_balls" /\
  0 <= qfield d "expected_fours" /\
  0 <= qfield d "expected_sixes" /\
  qfield d "expected_strike_rate"
    == qfield d "expected_runs" / qfield d "expected_balls" * 100 /\
  boundary_invariant 0 d.

(** ** Example records *)

Definition boundary_heavy_batting : dict :=
  [("expected_runs", VInt 10); ("expected_fours", VInt 4); ("expected_sixes", VInt 1)].

Definition negative_batting : dict :=
  [("expected_runs", VInt (-5)); ("expected_balls", VFloat (-5 # 2));
   ("expected_strike_rate", VInt (-120)); ("expected_fours", VInt (-1));
   ("expected_sixes", VFloat (-1 # 2))].

Definition negative_bowling : dict :=
  [("expected_overs", VInt (-3)); ("expected_economy", VFloat (-15 # 2));
   ("expected_wickets", VInt (-1)); ("expected_runs_conceded", VInt (-20))].



Definition fractional_balls_batting : dict :=
  [("expected_runs", VInt 9); ("expected_balls", VFloat (9 # 8));
   ("expected_strike_rate", VInt 800);
   ("expected_fours", VInt 0); ("expected_sixes", VInt 0)].


Definition over_cap_bowling : dict :=
  [("expected_overs", VInt 10); ("expected_economy", VInt 6)].

Definition consistent_batting : dict :=
  [("expected_runs", VInt 30); ("expected_balls", VInt 24);
   ("expected_strike_rate", VInt 125);
   ("expected_fours", VInt 3); ("expected_sixes", VFloat (3 # 2))].

(** ** The role policy, as the specification words it *)

Inductive role_class : Type :=
| Batsman
| Bowler
| AllRounder
| Unclassified.

(** Case-insensitive substring match, the first match winning:
    batsman, then bowler, then all-rounder or all rounder. *)
Definition classify (role : string) : role_class :=
  let r := lower role in
  if contains "batsman" r then Batsman
  else if contains "bowler" r then Bowler
  else if contains "all-rounder" r then AllRounder
  else if contains "all rounder" r then AllRounder
  else Unclassified.

(** [Floor q]: raise to at least [q]; [Cap q]: lower to at most [q]. *)
Inductive bound : Type :=
| Floor (q : Q)
| Cap (q : Q).

Definition apply_bound (b : bound) (x : Q) : Q :=
  match b with
  | Floor q => qmax x q
  | Cap q => qmin x q
  end.

(** The policy table: the bound on [batting.expected_runs] and the bound
    on [bowling.expected_wickets]. *)
Definition policy (c : role_class) : option (bound * bound) :=
  match c with
  | Batsman => Some (Floor 20, Cap (1 # 2))
  | Bowler => Some (Cap 15, Floor 1)
  | AllRounder => Some (Floor 15, Floor (1 # 2))
  | Unclassified => None
  end.

(** The sub-record [section] of a prediction is absent, or a dictionary
    whose [field] is absent or numeric. *)
Definition section_numeric (section field : string) (p : dict) : bool :=
  match Dict.get p section with
  | None => true
  | Some (VDict sub) => is_numeric (Dict.get_default sub field (VInt 0))
  | Some _ => false
  end.

(** From [p] to [p'] the sub-record [section] stays absent if it was, and
    otherwise has [field] brought within the bound and nothing else changed. *)
Definition section_adjusted (b : bound) (section field : string) (p p' : dict) : Prop :=
  match Dict.get p section with
  | None => Dict.get p' section = None
  | Some (VDict sub) =>
      exists sub',
        Dict.get p' section = Some (VDict sub') /\
        qfield sub' field == apply_bound b (qfield sub field) /\
        (forall k, k <> field -> Dict.get sub' k = Dict.get sub k)
  | Some _ => False
  end.


Definition nested_role_player : dict :=
  [("personalInformation", VDict [("role", VStr "Batsman")])].

Definition two_wickets_prediction : dict :=
  [("bowling", VDict [("expected_wickets", VInt 2)])].


(** ** Match predictions *)


(** [expected_scores] is absent, or a dictionary of numbers. *)
Definition scores_numeric (match_prediction : dict) : bool :=
  match Dict.get match_prediction "expected_scores" with
  | None => true
  | Some (VDict scores) => forallb (fun kv => is_numeric (snd kv)) scores
  | Some _ => false
  end.





(** The number a value stands for, 0 when it is not a number. *)
Definition numval (v : value) : Q :=
  match as_num v with
  | Some q => q
  | None => 0
  end.


(** ** Results on numeric records *)

(** The result of the batting reconciler on a record with numeric fields;
    [expected_strike_rate] may hold anything when [expected_balls] is positive. *)
Definition batting_result (d d' : dict) : Prop :=
  let r := qfield d "expected_runs" in
  let b := qfield d "expected_balls" in
  let s := qfield d "expected_strike_rate" in
  let f := qfield d "expected_fours" in
  let x := qfield d "expected_sixes" in
  ensure_batting_consistency d = Ok d' /\
  (reads d' "expected_runs" (qfield d' "expected_runs") /\
   qfield d' "expected_runs" == round_to 1 (qmax 0 r)) /\
  (reads d' "expected_balls" (qfield d' "expected_balls") /\
   qfield d' "expected_balls" == round_to 1 (qmax 1 (batting_balls r b s))) /\
  (reads d' "expected_strike_rate" (qfield d' "expected_strike_rate") /\
   qfield d' "expected_strike_rate" == round_to 1 (qmax 0 (batting_strike_rate r b s))) /\
  (reads d' "expected_fours" (qfield d' "expected_fours") /\
   qfield d' "expected_fours" == round_to 1 (qmax 0 (scaled r f x f))) /\
  (reads d' "expected_sixes" (qfield d' "expected_sixes") /\
   qfield d' "expected_sixes" == round_to 1 (qmax 0 (scaled r f x x))) /\
  (forall k, ~ In k batting_keys -> Dict.get d' k = Dict.get d k).

Definition bowling_result (d : dict) (format_type : string) (d' : dict) : Prop :=
  let o := qfield d "expected_overs" in
  let e := qfield d "expected_economy" in
  let w := qfield d "expected_wickets" in
  let rc := qfield d "expected_runs_conceded" in
  ensure_bowling_consistency d format_type = Ok d' /\
  (reads d' "expected_overs" (qfield d' "expected_overs") /\
   qfield d' "expected_overs" == round_to 1 (qmax 0 (capped_overs format_type o))) /\
  (reads d' "expected_economy" (qfield d' "expected_economy") /\
   qfield d' "expected_economy" == round_to 1 (qmax 0 (bowling_economy o e rc))) /\
  (reads d' "expected_wickets" (qfield d' "expected_wickets") /\
   qfield d' "expected_wickets" == round_to 1 (qmax 0 w)) /\
  (reads d' "expected_runs_conceded" (qfield d' "expected_runs_conceded") /\
   qfield d' "expected_runs_conceded" == round_to 1 (qmax 0 (bowling_runs_conceded o e rc))) /\
  (forall k, ~ In k bowling_keys -> Dict.get d' k = Dict.get d k).

(** One block of the role adjuster does what the bound [b] asks. *)
Definition block_correct (b : bound) (section field : string)
    (test : value -> res bool) (limit : value -> res value) : Prop :=
  forall p,
    section_numeric section field p = true ->
    exists p',
      adjust_field p section field test limit = Ok p' /\
      section_adjusted b section field p p' /\
      (forall k, k <> section -> Dict.get p' k = Dict.get p k).

(** ** Well-typed input

    The records the five methods accept without raising: every field is
    absent or holds a value of the type the data model gives it. *)

Definition player_well_typed (player : dict) : bool :=
  match Dict.get player "personalInformation" with
  | None => true
  | Some (VDict info) =>
      match Dict.get info "role" with
      | None | Some (VStr _) => true
      | Some _ => false
      end
  | Some _ => false
  end.

Definition prediction_well_typed (prediction : dict) : bool :=
  (section_numeric "batting" "expected_runs" prediction &&
   section_numeric "bowling" "expected_wickets" prediction)%bool.

(** The sub-record [section] of a performance is absent, or a dictionary
    whose listed fields are absent or numeric. *)
Definition section_well_typed (keys : list string) (section : string) (perf : dict) : bool :=
  match Dict.get perf section with
  | None => true
  | Some (VDict sub) => numeric_fields keys sub
  | Some _ => false
  end.

Definition member_well_typed (player : value) : bool :=
  match player with
  | VDict p =>
      match Dict.get p "performance" with
      | None => true
      | Some (VDict perf) =>
          (section_well_typed batting_keys "batting" perf &&
           section_well_typed bowling_keys "bowling" perf)%bool
      | Some _ => false
      end
  | _ => false
  end.


Definition match_well_typed (match_prediction : dict) : bool :=
  (scores_numeric match_prediction &&
   match Dict.get match_prediction "prediction" with
   | None => true
   | Some (VDict pr) =>
       match Dict.get pr "team_probabilities" with
       | None => true
       | Some (VDict probs) => forallb (fun kv => is_numeric (snd kv)) probs
       | Some _ => false
       end
   | Some _ => false
   end)%bool.

Definition sample_team : dict :=
  [("players",
    VList [VDict [("name", VStr "P1");
                  ("performance",
                   VDict [("batting", VDict boundary_heavy_batting);
                          ("bowling", VDict over_cap_bowling)])];
           VDict [("name", VStr "P2")]]);
   ("captain", VStr "Unknown Player")].

(** ** Score bands and team membership *)

(** The band of realistic innings scores of a format, if it has one. *)
Definition score_band (format_type : string) : option (Q * Q) :=
  if String.eqb (upper format_type) "T20I" then Some (120, 220)
  else if String.eqb (upper format_type) "ODI" then Some (200, 350)
  else None.

(** [prediction] is absent, or a dictionary whose [team_probabilities] is
    absent or a dictionary of numbers. *)
Definition probabilities_well_typed (match_prediction : dict) : bool :=
  match Dict.get match_prediction "prediction" with
  | None => true
  | Some (VDict pr) =>
      match Dict.get pr "team_probabilities" with
      | None => true
      | Some (VDict probs) => forallb (fun kv => is_numeric (snd kv)) probs
      | Some _ => false
      end
  | Some _ => false
  end.

(** The name under which a team member is matched. *)
Definition member_name (player : value) : value :=
  match player with
  | VDict p => Dict.get_default p "name" (VStr "")
  | _ => VStr ""
  end.

(** Some member of the team is named [who]. *)
Definition named (players : list value) (who : value) : bool :=
  existsb (fun p => py_eq (member_name p) who) players.

(** The sub-record [section] of a member's performance, if it has one. *)
Definition member_section (section : string) (player : value) : option value :=
  match player with
  | VDict p =>
      match Dict.get p "performance" with
      | Some (VDict perf) => Dict.get perf section
      | _ => None
      end
  | _ => None
  end.

(** From [player] to [player'] the sub-record [section] of the performance
    is replaced by what [reconcile] returns on it, and stays absent if it
    was. *)
Definition section_reconciled (reconcile : dict -> res dict) (section : string)
    (player player' : value) : Prop :=
  match member_section section player with
  | Some (VDict sub) =>
      exists sub',
        reconcile sub = Ok sub' /\
        member_section section player' = Some (VDict sub')
  | _ => member_section section player' = member_section section player
  end.

(** What the loop over the players does to one member. *)
Definition member_reconciled (format_type : string) (player player' : value) : Prop :=
  member_name player' = member_name player /\
  section_reconciled ensure_batting_consistency "batting" player player' /\
  section_reconciled (fun b => ensure_bowling_consistency b format_type) "bowling"
    player player'.

Definition lone_player_team : dict :=
  [("players", VList [VDict [("name", VStr "P1")]]);
   ("captain", VStr "Unknown Player");
   ("vice_captain", VStr "Nobody")].

(** The captaincy repair of [ensure_fantasy_team_consistency], with the
    warnings it logs: the first member replaces a captain who is not in the
    team, the second member a vice-captain who is not. *)
Definition repaired_captain (team : dict) (players : list value) : dict * list warning :=
  let captain := Dict.get_default team "captain" (VStr "") in
  match players with
  | p :: _ =>
      if named players captain then (team, [])
      else (Dict.set team "captain" (member_name p), [CaptainNotInTeam captain])
  | [] => (team, [])
  end.

Definition repaired_vice_captain (team repaired : dict) (players : list value)
  : dict * list warning :=
  let vice_captain := Dict.get_default team "vice_captain" (VStr "") in
  match players with
  | _ :: q :: _ =>
      if named players vice_captain then (repaired, [])
      else (Dict.set repaired "vice_captain" (member_name q),
            [ViceCaptainNotInTeam vice_captain])
  | _ => (repaired, [])
  end.

Definition size_warning (players : list value) : list warning :=
  if Nat.eqb (List.length players) 11 then []
  else [WrongTeamSize (List.length players)].

(** The block of the role adjuster with test [test] has nothing to do on
    [p]: the sub-record is absent, or its field fails the test. *)
Definition settled (test : value -> res bool) (section field : string) (p : dict) : Prop :=
  match Dict.get p section with
  | None => True
  | Some (VDict sub) => test (Dict.get_default sub field (VInt 0)) = Ok false
  | Some _ => False
  end.

(** A block of the role adjuster brings its field to rest in one go. *)
Definition block_settles (section field : string)
    (test : value -> res bool) (limit : value -> res value) : Prop :=
  forall p,
    section_numeric section field p = true ->
    exists p',
      adjust_field p section field test limit = Ok p' /\
      settled test section field p' /\
      (forall k, k <> section -> Dict.get p' k = Dict.get p k).

Definition is_dict (v : value) : bool :=
  match v with
  | VDict _ => true
  | _ => false
  end.

Definition is_str (v : value) : bool :=
  match v with
  | VStr _ => true
  | _ => false
  end.

(** * Rounding *)

Section Rounding.

(** The rounded integer is within one half of the rational, and a tie is
    resolved to the even neighbour. *)
Lemma round_half_even_spec (q : Q) (z : Z) :
  z = round_half_even q ->
  (2 * Qnum q - Zpos (Qden q) <= 2 * z * Zpos (Qden q) <= 2 * Qnum q + Zpos (Qden q))%Z /\
  ((2 * z * Zpos (Qden q) = 2 * Qnum q + Zpos (Qden q))%Z \/
   (2 * z * Zpos (Qden q) = 2 * Qnum q - Zpos (Qden q))%Z -> Z.even z = true).
Proof.
  destruct q as [n d]; cbn [Qnum Qden]; intros Hz.
  assert (Hd : (0 < Zpos d)%Z) by lia.
  pose proof (Z.div_mod n (Zpos d) ltac:(lia)) as Hdm.
  pose proof (Z.mod_pos_bound n (Zpos d) Hd) as Hr.
  unfold round_half_even in Hz; cbn [Qnum Qden] in Hz.
  set (f := (n / Zpos d)%Z) in *.
  set (r := (n mod Zpos d)%Z) in *.
  destruct (Z.compare_spec (2 * r) (Zpos d)) as [He | Hl | Hg].
  - destruct (Z.even f) eqn:Hev; subst z.
    + split; [nia |]. intros _; exact Hev.
    + split; [nia |]. intros _.
      rewrite Z.even_add, Hev; reflexivity.
  - subst z. split; [nia |]. intros [H | H]; exfalso; nia.
  - subst z. split; [nia |]. intros [H | H]; exfalso; nia.
Qed.

Lemma round_half_even_mono (x y : Q) :
  x <= y -> (round_half_even x <= round_half_even y)%Z.
Proof.
  intros Hxy.
  destruct (round_half_even_spec x _ eq_refl) as [[Hx1 Hx2] Hxe].
  destruct (round_half_even_spec y _ eq_refl) as [[Hy1 Hy2] Hye].
  unfold Qle in Hxy.
  set (zx := round_half_even x) in *.
  set (zy := round_half_even y) in *.
  set (nx := Qnum x) in *. set (ny := Qnum y) in *.
  set (dx := Zpos (Qden x)) in *. set (dy := Zpos (Qden y)) in *.
  assert (0 < dx)%Z by (subst dx; lia).
  assert (0 < dy)%Z by (subst dy; lia).
  destruct (Z_le_gt_dec zx zy) as [Hle | Hgt]; [exact Hle | exfalso].
  (* zx >= zy + 1 forces x = y = zy + 1/2 = zx - 1/2: a tie with two answers *)
  assert (A1 : (2 * zx * (dx * dy) <= 2 * (nx * dy) + dx * dy)%Z) by nia.
  assert (A2 : (2 * (ny * dx) - dx * dy <= 2 * zy * (dx * dy))%Z) by nia.
  assert (Hp : (0 < dx * dy)%Z) by nia.
  assert (Hz : zx = (zy + 1)%Z) by nia.
  assert (Hx : (2 * zx * dx = 2 * nx + dx)%Z) by nia.
  assert (Hy : (2 * zy * dy = 2 * ny - dy)%Z) by nia.
  pose proof (Hxe (or_introl Hx)) as E1.
  pose proof (Hye (or_intror Hy)) as E2.
  rewrite Hz, Z.even_add, E2 in E1. discriminate.
Qed.

Lemma round_half_even_compat (x y : Q) :
  x == y -> round_half_even x = round_half_even y.
Proof.
  intros E. apply Z.le_antisymm; apply round_half_even_mono; rewrite E; apply Qle_refl.
Qed.

Lemma round_half_even_Z (n : Z) : round_half_even (inject_Z n) = n.
Proof.
  unfold round_half_even, inject_Z; cbn [Qnum Qden].
  rewrite Z.mod_1_r, Z.div_1_r. reflexivity.
Qed.


End Rounding.

Section RoundTo.

Variable ndigits : nat.

Local Abbreviation scale := (inject_Z (10 ^ Z.of_nat ndigits)).

Lemma scale_pos : 0 < scale.
Proof.
  change 0 with (inject_Z 0). rewrite <- Zlt_Qlt.
  apply Z.pow_pos_nonneg; lia.
Qed.

Lemma round_to_eq (q : Q) :
  round_to ndigits q == inject_Z (round_half_even (q * scale)) / scale.
Proof. unfold round_to. apply Qred_correct. Qed.

Lemma round_to_canon (q : Q) : Qred (round_to ndigits q) = round_to ndigits q.
Proof. unfold round_to. apply Qred_complete, Qred_correct. Qed.

Lemma round_to_compat (x y : Q) : x == y -> round_to ndigits x = round_to ndigits y.
Proof.
  intros E. unfold round_to. apply Qred_complete.
  rewrite (round_half_even_compat (x * inject_Z (10 ^ Z.of_nat ndigits))
             (y * inject_Z (10 ^ Z.of_nat ndigits))); [reflexivity |].
  rewrite E. reflexivity.
Qed.

Lemma round_to_mono (x y : Q) : x <= y -> round_to ndigits x <= round_to ndigits y.
Proof.
  intros H. rewrite !round_to_eq.
  pose proof scale_pos as Hs.
  apply Qmult_le_compat_r; [| apply Qlt_le_weak, Qinv_lt_0_compat, Hs].
  rewrite <- Zle_Qle. apply round_half_even_mono.
  apply Qmult_le_compat_r; [exact H | apply Qlt_le_weak, Hs].
Qed.

(** A value with at most [ndigits] decimals is left as it is. *)
Lemma round_to_fixed (q : Q) (n : Z) :
  q * scale == inject_Z n -> round_to ndigits q == q.
Proof.
  intros E. rewrite round_to_eq.
  rewrite (round_half_even_compat _ _ E), round_half_even_Z, <- E.
  pose proof scale_pos as Hs. field. intros C. rewrite C in Hs.
  exact (Qlt_irrefl _ Hs).
Qed.

Lemma round_to_Z (n : Z) : round_to ndigits (inject_Z n) == inject_Z n.
Proof.
  apply (round_to_fixed _ (n * 10 ^ Z.of_nat ndigits)).
  rewrite inject_Z_mult. reflexivity.
Qed.

Lemma round_to_ge_Z (q : Q) (n : Z) :
  inject_Z n <= q -> inject_Z n <= round_to ndigits q.
Proof.
  intros H. rewrite <- (round_to_Z n). apply round_to_mono, H.
Qed.


End RoundTo.

(** * Operators on numbers *)

Lemma Qltb_lt (x y : Q) : Qltb x y = true <-> x < y.
Proof.
  unfold Qltb. rewrite Qlt_alt. destruct (x ?= y); split; congruence.
Qed.

Lemma Qltb_ge (x y : Q) : Qltb x y = false <-> y <= x.
Proof.
  split; intros H.
  - apply Qnot_lt_le. intros C. apply Qltb_lt in C. congruence.
  - destruct (Qltb x y) eqn:E; [| reflexivity].
    apply Qltb_lt in E. exfalso. exact (Qlt_not_le _ _ E H).
Qed.

Lemma Qltb_compat (x x' y y' : Q) : x == x' -> y == y' -> Qltb x y = Qltb x' y'.
Proof. intros Ex Ey. unfold Qltb. rewrite Ex, Ey. reflexivity. Qed.

#[global] Instance Qltb_proper : Proper (Qeq ==> Qeq ==> eq) Qltb.
Proof. intros x x' Ex y y' Ey. apply Qltb_compat; assumption. Qed.

#[global] Instance qmax_proper : Proper (Qeq ==> Qeq ==> Qeq) qmax.
Proof.
  intros x x' Ex y y' Ey. unfold qmax. rewrite (Qltb_compat _ _ _ _ Ex Ey).
  destruct (Qltb x' y'); assumption.
Qed.

#[global] Instance qmin_proper : Proper (Qeq ==> Qeq ==> Qeq) qmin.
Proof.
  intros x x' Ex y y' Ey. unfold qmin. rewrite (Qltb_compat _ _ _ _ Ey Ex).
  destruct (Qltb y' x'); assumption.
Qed.

Lemma qmax_spec (x y : Q) : x <= qmax x y /\ y <= qmax x y /\ (qmax x y == x \/ qmax x y == y).
Proof.
  unfold qmax. destruct (Qltb x y) eqn:E.
  - apply Qltb_lt in E. split; [lra | split; [lra | right; reflexivity]].
  - apply Qltb_ge in E. split; [lra | split; [lra | left; reflexivity]].
Qed.

Lemma py_gt_num (a b : value) (x y : Q) :
  denotes a x -> denotes b y -> py_gt a b = Ok (Qltb y x).
Proof.
  intros (p & Ea & Ep) (q & Eb & Eq).
  rewrite <- (Qltb_compat _ _ _ _ Eq Ep).
  destruct a; try discriminate; destruct b; try discriminate;
    cbn in *; congruence.
Qed.

Lemma py_lt_num (a b : value) (x y : Q) :
  denotes a x -> denotes b y -> py_lt a b = Ok (Qltb x y).
Proof.
  intros (p & Ea & Ep) (q & Eb & Eq).
  rewrite <- (Qltb_compat _ _ _ _ Ep Eq).
  destruct a; try discriminate; destruct b; try discriminate;
    cbn in *; congruence.
Qed.

Section NumericOperators.

Variables (a b : value) (x y : Q).
Hypothesis Ha : denotes a x.
Hypothesis Hb : denotes b y.

Lemma denotes_is_numeric : is_numeric a = true.
Proof. destruct Ha as (q & E & _). unfold is_numeric. rewrite E. reflexivity. Qed.

Lemma py_max_num : exists v, py_max a b = Ok v /\ denotes v (qmax x y).
Proof.
  unfold py_max, qmax. rewrite (py_gt_num b a y x Hb Ha). cbn.
  destruct (Qltb x y); eexists; split; try reflexivity; assumption.
Qed.

Lemma py_min_num : exists v, py_min a b = Ok v /\ denotes v (qmin x y).
Proof.
  unfold py_min, qmin. rewrite (py_lt_num b a y x Hb Ha). cbn.
  destruct (Qltb y x); eexists; split; try reflexivity; assumption.
Qed.

Lemma py_add_num : exists v, py_add a b = Ok v /\ denotes v (x + y).
Proof.
  destruct Ha as (p & Ea & Ep), Hb as (q & Eb & Eq).
  destruct a; try discriminate; destruct b; try discriminate;
    cbn -[Qred Qplus Qmult inject_Z Z.add Z.mul] in *;
    injection Ea as <-; injection Eb as <-;
    eexists; (split; [reflexivity |]); eexists; (split; [reflexivity |]);
    rewrite <- Ep, <- Eq; rewrite ?Qred_correct, ?inject_Z_plus;
    repeat match goal with |- context [if ?c then _ else _] => destruct c end;
    reflexivity.
Qed.

Lemma py_mul_num : exists v, py_mul a b = Ok v /\ denotes v (x * y).
Proof.
  destruct Ha as (p & Ea & Ep), Hb as (q & Eb & Eq).
  destruct a; try discriminate; destruct b; try discriminate;
    cbn -[Qred Qplus Qmult inject_Z Z.add Z.mul] in *;
    injection Ea as <-; injection Eb as <-;
    eexists; (split; [reflexivity |]); eexists; (split; [reflexivity |]);
    rewrite <- Ep, <- Eq; rewrite ?Qred_correct, ?inject_Z_mult;
    repeat match goal with |- context [if ?c then _ else _] => destruct c end;
    reflexivity.
Qed.

Lemma py_truediv_num : ~ y == 0 -> exists v, py_truediv a b = Ok v /\ denotes v (x / y).
Proof.
  intros Hy.
  destruct Ha as (p & Ea & Ep), Hb as (q & Eb & Eq).
  unfold py_truediv. rewrite Ea, Eb.
  destruct (Qeq_bool q 0) eqn:E.
  - apply Qeq_bool_eq in E. exfalso. apply Hy. rewrite <- Eq. exact E.
  - eexists; split; [reflexivity |]. eexists; split; [reflexivity |].
    rewrite Qred_correct, Ep, Eq. reflexivity.
Qed.

Lemma py_round_num (ndigits : nat) :
  exists v, py_round a ndigits = Ok v /\ denotes v (round_to ndigits x).
Proof.
  destruct Ha as (p & Ea & Ep).
  destruct a; try discriminate; cbn -[round_to inject_Z] in *; injection Ea as <-;
    eexists; (split; [reflexivity |]); eexists; (split; [reflexivity |]).
  - rewrite <- (round_to_compat ndigits _ _ Ep).
    destruct b0; symmetry; [apply (round_to_Z ndigits 1) | apply (round_to_Z ndigits 0)].
  - rewrite <- (round_to_compat ndigits _ _ Ep). symmetry. apply round_to_Z.
  - rewrite (round_to_compat ndigits _ _ Ep). reflexivity.
Qed.

End NumericOperators.

Lemma denotes_int (n : Z) : denotes (VInt n) (inject_Z n).
Proof. eexists; split; reflexivity. Qed.

Lemma denotes_float (q : Q) : denotes (VFloat q) q.
Proof. eexists; split; reflexivity. Qed.

(** * Dictionaries *)

Lemma get_set_same (d : dict) (k : string) (v : value) :
  Dict.get (Dict.set d k v) k = Some v.
Proof.
  induction d as [| [k' v'] d IH]; cbn.
  - rewrite String.eqb_refl. reflexivity.
  - destruct (String.eqb k k') eqn:E; cbn; rewrite E; [reflexivity | exact IH].
Qed.

Lemma get_set_other (d : dict) (k k' : string) (v : value) :
  String.eqb k' k = false -> Dict.get (Dict.set d k v) k' = Dict.get d k'.
Proof.
  intros N. induction d as [| [k0 v0] d IH]; cbn.
  - rewrite N. reflexivity.
  - destruct (String.eqb k k0) eqn:E; cbn.
    + apply String.eqb_eq in E. subst k0. rewrite N. reflexivity.
    + rewrite IH. reflexivity.
Qed.

Ltac dict_lookup :=
  cbn [Dict.update fold_left fst snd];
  repeat first
    [ rewrite get_set_same
    | rewrite get_set_other by reflexivity ].

Lemma numeric_fields_denotes (keys : list string) (d : dict) (k : string) :
  numeric_fields keys d = true -> In k keys ->
  denotes (Dict.get_default d k (VInt 0)) (qfield d k).
Proof.
  unfold numeric_fields. rewrite forallb_forall. intros H Hin.
  specialize (H k Hin). unfold is_numeric, qfield, denotes in *.
  destruct (as_num (Dict.get_default d k (VInt 0))) as [q |]; [| discriminate].
  exists q. split; reflexivity.
Qed.

(** * Symbolic execution on numeric records *)

Create HintDb den discriminated.
#[local] Hint Resolve denotes_int denotes_float : den.

Lemma qmax_one_nonzero (x : Q) : ~ qmax 1 x == 0.
Proof. destruct (qmax_spec 1 x) as (H & _ & _). intros C. rewrite C in H. lra. Qed.

Lemma pos_nonzero (x : Q) : Qltb 0 x = true -> ~ x == 0.
Proof. intros H C. apply Qltb_lt in H. rewrite C in H. lra. Qed.

(** One step of execution: the next operator is applied to numbers. *)
Ltac run_op :=
  match goal with
  | |- context [py_gt ?a ?b] =>
      rewrite (py_gt_num a b _ _ ltac:(eauto with den) ltac:(eauto with den))
  | |- context [py_lt ?a ?b] =>
      rewrite (py_lt_num a b _ _ ltac:(eauto with den) ltac:(eauto with den))
  | |- context [py_mul ?a ?b] =>
      let E := fresh "E" in let v := fresh "v" in let D := fresh "D" in
      destruct (py_mul_num a b _ _ ltac:(eauto with den) ltac:(eauto with den))
        as (v & E & D); rewrite E; clear E
  | |- context [py_add ?a ?b] =>
      let E := fresh "E" in let v := fresh "v" in let D := fresh "D" in
      destruct (py_add_num a b _ _ ltac:(eauto with den) ltac:(eauto with den))
        as (v & E & D); rewrite E; clear E
  | |- context [py_max ?a ?b] =>
      let E := fresh "E" in let v := fresh "v" in let D := fresh "D" in
      destruct (py_max_num a b _ _ ltac:(eauto with den) ltac:(eauto with den))
        as (v & E & D); rewrite E; clear E
  | |- context [py_min ?a ?b] =>
      let E := fresh "E" in let v := fresh "v" in let D := fresh "D" in
      destruct (py_min_num a b _ _ ltac:(eauto with den) ltac:(eauto with den))
        as (v & E & D); rewrite E; clear E
  | |- context [py_round ?a ?n] =>
      let E := fresh "E" in let v := fresh "v" in let D := fresh "D" in
      destruct (py_round_num a _ ltac:(eauto with den) n)
        as (v & E & D); rewrite E; clear E
  | |- context [py_truediv ?a ?b] =>
      let E := fresh "E" in let v := fresh "v" in let D := fresh "D" in
      destruct (py_truediv_num a b _ _ ltac:(eauto with den) ltac:(eauto with den)
                  ltac:(first [apply qmax_one_nonzero | apply pos_nonzero; assumption]))
        as (v & E & D); rewrite E; clear E
  end; cbn [bind]; unfold inject_Z in *.

Ltac run_if :=
  match goal with
  | |- context [if Qltb ?x ?y then _ else _] =>
      let C := fresh "C" in destruct (Qltb x y) eqn:C
  | |- context [if String.eqb ?x ?y then _ else _] =>
      let C := fresh "C" in destruct (String.eqb x y) eqn:C
  end; cbn [bind andb].

Lemma batting_run (d : dict) (r b s f x : Q) :
  denotes (Dict.get_default d "expected_runs" (VInt 0)) r ->
  denotes (Dict.get_default d "expected_balls" (VInt 0)) b ->
  (Qltb 0 b = false -> denotes (Dict.get_default d "expected_strike_rate" (VInt 0)) s) ->
  denotes (Dict.get_default d "expected_fours" (VInt 0)) f ->
  denotes (Dict.get_default d "expected_sixes" (VInt 0)) x ->
  exists vr vb vs vf vx,
    ensure_batting_consistency d =
      Ok (Dict.update d
            [("expected_runs", vr); ("expected_balls", vb);
             ("expected_strike_rate", vs); ("expected_fours", vf);
             ("expected_sixes", vx)]) /\
    denotes vr (round_to 1 (qmax 0 r)) /\
    denotes vb (round_to 1 (qmax 1 (batting_balls r b s))) /\
    denotes vs (round_to 1 (qmax 0 (batting_strike_rate r b s))) /\
    denotes vf (round_to 1 (qmax 0 (scaled r f x f))) /\
    denotes vx (round_to 1 (qmax 0 (scaled r f x x))).
Proof.
  intros Hr Hb Hs Hf Hx.
  unfold ensure_batting_consistency, batting_balls, batting_strike_rate, scaled,
    boundary_runs.
  set (runs := Dict.get_default d "expected_runs" (VInt 0)) in *.
  set (balls := Dict.get_default d "expected_balls" (VInt 0)) in *.
  set (strike_rate := Dict.get_default d "expected_strike_rate" (VInt 0)) in *.
  set (fours := Dict.get_default d "expected_fours" (VInt 0)) in *.
  set (sixes := Dict.get_default d "expected_sixes" (VInt 0)) in *.
  rewrite (py_gt_num balls (VInt 0) b 0 Hb (denotes_int 0)). cbn [bind].
  destruct (Qltb 0 b) eqn:Cb; [clear Hs | specialize (Hs eq_refl)].
  all: repeat first [run_op | run_if].
  all: do 5 eexists; (split; [reflexivity |]); repeat split; eauto with den.
Qed.

Lemma bowling_run (d : dict) (format_type : string) (o e w rc : Q) :
  denotes (Dict.get_default d "expected_overs" (VInt 0)) o ->
  denotes (Dict.get_default d "expected_economy" (VInt 0)) e ->
  denotes (Dict.get_default d "expected_wickets" (VInt 0)) w ->
  denotes (Dict.get_default d "expected_runs_conceded" (VInt 0)) rc ->
  exists vo ve vw vrc,
    ensure_bowling_consistency d format_type =
      Ok (Dict.update d
            [("expected_overs", vo); ("expected_economy", ve);
             ("expected_wickets", vw); ("expected_runs_conceded", vrc)]) /\
    denotes vo (round_to 1 (qmax 0 (capped_overs format_type o))) /\
    denotes ve (round_to 1 (qmax 0 (bowling_economy o e rc))) /\
    denotes vw (round_to 1 (qmax 0 w)) /\
    denotes vrc (round_to 1 (qmax 0 (bowling_runs_conceded o e rc))).
Proof.
  intros Ho He Hw Hrc.
  unfold ensure_bowling_consistency, capped_overs, bowling_economy,
    bowling_runs_conceded.
  set (overs := Dict.get_default d "expected_overs" (VInt 0)) in *.
  set (economy := Dict.get_default d "expected_economy" (VInt 0)) in *.
  set (wickets := Dict.get_default d "expected_wickets" (VInt 0)) in *.
  set (runs_conceded := Dict.get_default d "expected_runs_conceded" (VInt 0)) in *.
  repeat first [run_op | run_if].
  all: do 4 eexists; (split; [reflexivity |]); repeat split; eauto with den.
Qed.

Lemma denotes_qfield (d : dict) (k : string) (v : value) (x : Q) :
  Dict.get d k = Some v -> denotes v x -> reads d k (qfield d k) /\ qfield d k == x.
Proof.
  intros G (q & E & Eq). unfold reads, qfield, Dict.get_default. rewrite G, E.
  split; [exists v; split; [reflexivity | exact E] | exact Eq].
Qed.

Lemma round_clamp_nonneg (ndigits : nat) (x : Q) : 0 <= round_to ndigits (qmax 0 x).
Proof. apply (round_to_ge_Z ndigits _ 0). apply qmax_spec. Qed.

Lemma round_clamp_ge_one (ndigits : nat) (x : Q) : 1 <= round_to ndigits (qmax 1 x).
Proof. apply (round_to_ge_Z ndigits _ 1). apply qmax_spec. Qed.

Ltac numeric_field H :=
  match goal with
  | |- denotes (Dict.get_default _ ?k _) _ =>
      apply (numeric_fields_denotes _ _ k H); cbn; tauto
  end.

Lemma eqb_of_not_in (k k' : string) (keys : list string) :
  ~ In k keys -> In k' keys -> String.eqb k k' = false.
Proof.
  intros N I. apply String.eqb_neq. intros ->. exact (N I).
Qed.

Lemma batting_numeric_result (d : dict) :
  numeric_fields
    ["expected_runs"; "expected_balls"; "expected_fours"; "expected_sixes"] d = true ->
  (Qltb 0 (qfield d "expected_balls") = false ->
   is_numeric (Dict.get_default d "expected_strike_rate" (VInt 0)) = true) ->
  exists d', batting_result d d'.
Proof.
  intros H Hs.
  destruct (batting_run d
              (qfield d "expected_runs") (qfield d "expected_balls")
              (qfield d "expected_strike_rate")
              (qfield d "expected_fours") (qfield d "expected_sixes"))
    as (vr & vb & vs & vf & vx & E & Dr & Db & Ds & Df & Dx).
  1, 2, 4, 5: try numeric_field H.
  { intros C. specialize (Hs C). unfold is_numeric, qfield, denotes in *.
    destruct (as_num (Dict.get_default d "expected_strike_rate" (VInt 0))) as [q |];
      [exists q; split; reflexivity | discriminate]. }
  eexists. split; [exact E |].
  repeat split;
    try (eapply denotes_qfield; [dict_lookup; reflexivity | eassumption]).
  intros k N. cbn [Dict.update fold_left fst snd].
  rewrite !get_set_other; [reflexivity | ..];
    apply (eqb_of_not_in _ _ _ N); cbn; tauto.
Qed.

Lemma bowling_numeric_result (d : dict) (format_type : string) :
  numeric_fields bowling_keys d = true ->
  exists d', bowling_result d format_type d'.
Proof.
  intros H.
  destruct (bowling_run d format_type
              (qfield d "expected_overs") (qfield d "expected_economy")
              (qfield d "expected_wickets") (qfield d "expected_runs_conceded"))
    as (vo & ve & vw & vrc & E & Do & De & Dw & Drc).
  1, 2, 3, 4: numeric_field H.
  eexists. split; [exact E |].
  repeat split;
    try (eapply denotes_qfield; [dict_lookup; reflexivity | eassumption]).
  intros k N. cbn [Dict.update fold_left fst snd].
  rewrite !get_set_other; [reflexivity | ..];
    apply (eqb_of_not_in _ _ _ N); cbn; tauto.
Qed.

Lemma numeric_fields_incl (keys keys' : list string) (d : dict) :
  incl keys' keys -> numeric_fields keys d = true -> numeric_fields keys' d = true.
Proof.
  unfold numeric_fields. rewrite !forallb_forall. intros I H k Hk. apply H, I, Hk.
Qed.

Lemma batting_all_numeric_result (d : dict) :
  numeric_fields batting_keys d = true -> exists d', batting_result d d'.
Proof.
  intros H. apply batting_numeric_result.
  - revert H. apply numeric_fields_incl. intros k; cbn; tauto.
  - intros _. unfold numeric_fields in H. rewrite forallb_forall in H.
    apply H. cbn; tauto.
Qed.

(** * Non-negativity of reconciled records *)

(** C8.  For every batting record and every bowling record whose fields are
    numbers (negative ones included) or absent, the reconciler returns a
    record in which each of its fields is present and not negative, and in
    which [expected_balls] is at least 1. *)
Theorem reconciled_fields_nonnegative (batting bowling : dict) (format_type : string) :
  numeric_fields batting_keys batting = true ->
  numeric_fields bowling_keys bowling = true ->
  (exists batting',
      ensure_batting_consistency batting = Ok batting' /\
      Forall (fun k => exists q, reads batting' k q /\ 0 <= q) batting_keys /\
      exists q, reads batting' "expected_balls" q /\ 1 <= q) /\
  (exists bowling',
      ensure_bowling_consistency bowling format_type = Ok bowling' /\
      Forall (fun k => exists q, reads bowling' k q /\ 0 <= q) bowling_keys).
Proof.
  intros Hbat Hbowl. split.
  - destruct (batting_all_numeric_result batting Hbat)
      as (d' & E & (Rr & Qr) & (Rb & Qb) & (Rs & Qs) & (Rf & Qf) & (Rx & Qx) & _).
    exists d'. split; [exact E |]. split.
    + repeat constructor; eexists; (split; [eassumption |]).
      * rewrite Qr. apply round_clamp_nonneg.
      * rewrite Qb. apply Qle_trans with 1; [lra | apply round_clamp_ge_one].
      * rewrite Qs. apply round_clamp_nonneg.
      * rewrite Qf. apply round_clamp_nonneg.
      * rewrite Qx. apply round_clamp_nonneg.
    + eexists; split; [exact Rb |]. rewrite Qb. apply round_clamp_ge_one.
  - destruct (bowling_numeric_result bowling format_type Hbowl)
      as (d' & E & (Ro & Qo) & (Re & Qe) & (Rw & Qw) & (Rc & Qc) & _).
    exists d'. split; [exact E |].
    repeat constructor; eexists; (split; [eassumption |]).
    + rewrite Qo. apply round_clamp_nonneg.
    + rewrite Qe. apply round_clamp_nonneg.
    + rewrite Qw. apply round_clamp_nonneg.
    + rewrite Qc. apply round_clamp_nonneg.
Qed.

Lemma qmax_zero_nonneg (y : Q) : 0 <= y -> qmax 0 y == y.
Proof.
  intros H. unfold qmax. destruct (Qltb 0 y) eqn:E; [reflexivity |].
  apply Qltb_ge in E. lra.
Qed.





Lemma reconciled_fields_nonnegative_witness :
  numeric_fields batting_keys negative_batting = true /\
  numeric_fields bowling_keys negative_bowling = true /\
  (exists batting',
      ensure_batting_consistency negative_batting = Ok batting' /\
      Forall (fun k => exists q, reads batting' k q /\ 0 <= q) batting_keys /\
      exists q, reads batting' "expected_balls" q /\ 1 <= q) /\
  (exists bowling',
      ensure_bowling_consistency negative_bowling "ODI" = Ok bowling' /\
      Forall (fun k => exists q, reads bowling' k q /\ 0 <= q) bowling_keys).
Proof.
  split; [reflexivity |]. split; [reflexivity |].
  apply (reconciled_fields_nonnegative negative_batting negative_bowling "ODI");
    reflexivity.
Defined.

(** * The boundary-runs invariant *)




(** * The strike rate *)




(** * Idempotence of the batting reconciler *)

#[global] Instance round_to_proper (ndigits : nat) : Proper (Qeq ==> Qeq) (round_to ndigits).
Proof. intros x y E. rewrite (round_to_compat ndigits x y E). reflexivity. Qed.

#[global] Instance batting_balls_proper :
  Proper (Qeq ==> Qeq ==> Qeq ==> Qeq) batting_balls.
Proof.
  intros r r' Er b b' Eb s s' Es. unfold batting_balls.
  rewrite (Qltb_compat 0 0 b b' (Qeq_refl 0) Eb), (Qltb_compat 0 0 s s' (Qeq_refl 0) Es).
  destruct (Qltb 0 b'); [exact Eb |].
  destruct (Qltb 0 s'); [rewrite Er, Es; reflexivity | exact Eb].
Qed.

#[global] Instance batting_strike_rate_proper :
  Proper (Qeq ==> Qeq ==> Qeq ==> Qeq) batting_strike_rate.
Proof.
  intros r r' Er b b' Eb s s' Es. unfold batting_strike_rate.
  rewrite (Qltb_compat 0 0 b b' (Qeq_refl 0) Eb).
  destruct (Qltb 0 b'); [rewrite Er, Eb; reflexivity | exact Es].
Qed.

#[global] Instance boundary_runs_proper : Proper (Qeq ==> Qeq ==> Qeq) boundary_runs.
Proof. intros f f' Ef x x' Ex. unfold boundary_runs. rewrite Ef, Ex. reflexivity. Qed.

#[global] Instance scaled_proper : Proper (Qeq ==> Qeq ==> Qeq ==> Qeq ==> Qeq) scaled.
Proof.
  intros r r' Er f f' Ef x x' Ex v v' Ev. unfold scaled.
  assert (Eb : boundary_runs f x == boundary_runs f' x') by (rewrite Ef, Ex; reflexivity).
  rewrite (Qltb_compat _ _ _ _ Er Eb).
  destruct (Qltb r' (boundary_runs f' x')); [| exact Ev].
  rewrite Ev, Er, Eb. reflexivity.
Qed.

Lemma one_decimal_fixed (q : Q) : one_decimal q -> round_to 1 q == q.
Proof. intros (z & E). exact (round_to_fixed 1 q z E). Qed.

Lemma qmax_one_ge (y : Q) : 1 <= y -> qmax 1 y == y.
Proof.
  intros H. unfold qmax. destruct (Qltb 1 y) eqn:E; [reflexivity |].
  apply Qltb_ge in E. lra.
Qed.

Lemma reads_numeric (d : dict) (k : string) (q : Q) :
  reads d k q -> is_numeric (Dict.get_default d k (VInt 0)) = true.
Proof.
  intros (v & G & E). unfold is_numeric, Dict.get_default. rewrite G, E. reflexivity.
Qed.

Lemma batting_result_numeric (d d' : dict) :
  batting_result d d' -> numeric_fields batting_keys d' = true.
Proof.
  intros (_ & (Rr & _) & (Rb & _) & (Rs & _) & (Rf & _) & (Rx & _) & _).
  unfold numeric_fields, batting_keys. cbn [forallb].
  rewrite (reads_numeric _ _ _ Rr), (reads_numeric _ _ _ Rb), (reads_numeric _ _ _ Rs),
    (reads_numeric _ _ _ Rf), (reads_numeric _ _ _ Rx).
  reflexivity.
Qed.

(** C9, as stated, fails: the record with runs 9, balls 1.125 and strike
    rate 800 satisfies every invariant, yet its first reconciliation stores
    balls 1.1 with strike rate 800.0 and the second one recomputes 818.2. *)
Lemma second_pass_moves_strike_rate :
  batting_consistent fractional_balls_batting /\
  exists d1 d2,
    ensure_batting_consistency fractional_balls_batting = Ok d1 /\
    ensure_batting_consistency d1 = Ok d2 /\
    qfield d1 "expected_strike_rate" = 800 /\
    qfield d2 "expected_strike_rate" = decimal 8182 1 /\
    ~ Qabs (qfield d2 "expected_strike_rate" - qfield d1 "expected_strike_rate") <= (1 # 10).
Proof.
  split.
  - unfold batting_consistent, boundary_invariant.
    repeat split; vm_compute; discriminate.
  - eexists. eexists. split; [vm_compute; reflexivity |].
    split; [vm_compute; reflexivity |].
    split; [reflexivity |]. split; [reflexivity |].
    intros H. vm_compute in H. apply H. reflexivity.
Qed.

(** C9, amended.  For every already-consistent batting record whose runs,
    balls, fours and sixes have at most one decimal, a second reconciliation
    changes nothing: the five fields of the second result equal those of the
    first, and every other entry is the same. *)
Theorem reconcile_batting_idempotent (d : dict) :
  numeric_fields batting_keys d = true ->
  batting_consistent d ->
  one_decimal (qfield d "expected_runs") ->
  one_decimal (qfield d "expected_balls") ->
  one_decimal (qfield d "expected_fours") ->
  one_decimal (qfield d "expected_sixes") ->
  exists d1 d2,
    ensure_batting_consistency d = Ok d1 /\
    ensure_batting_consistency d1 = Ok d2 /\
    (forall k, In k batting_keys -> qfield d2 k == qfield d1 k) /\
    (forall k, ~ In k batting_keys -> Dict.get d2 k = Dict.get d1 k).
Proof.
  intros H (Hr & Hb & Hf & Hx & _ & Hbd) Dr Db Df Dx.
  unfold boundary_invariant in Hbd.
  destruct (batting_all_numeric_result d H) as (d1 & R1).
  pose proof (batting_result_numeric _ _ R1) as H1.
  destruct (batting_all_numeric_result d1 H1) as (d2 & R2).
  destruct R1 as (E1 & (_ & Qr1) & (_ & Qb1) & (_ & Qs1) & (_ & Qf1) & (_ & Qx1) & _).
  destruct R2 as (E2 & (_ & Qr2) & (_ & Qb2) & (_ & Qs2) & (_ & Qf2) & (_ & Qx2) & O2).
  set (r := qfield d "expected_runs") in *.
  set (b := qfield d "expected_balls") in *.
  set (s := qfield d "expected_strike_rate") in *.
  set (f := qfield d "expected_fours") in *.
  set (x := qfield d "expected_sixes") in *.
  assert (Cb : Qltb 0 b = true) by (apply Qltb_lt; lra).
  assert (Cs : Qltb r (boundary_runs f x) = false)
    by (apply (proj2 (Qltb_ge _ _)); unfold boundary_runs; lra).
  (* the first pass keeps runs, balls, fours and sixes *)
  assert (Er : qfield d1 "expected_runs" == r).
  { rewrite Qr1, (qmax_zero_nonneg _ Hr). apply one_decimal_fixed, Dr. }
  assert (Eb : qfield d1 "expected_balls" == b).
  { rewrite Qb1. unfold batting_balls. rewrite Cb, (qmax_one_ge _ Hb).
    apply one_decimal_fixed, Db. }
  assert (Ef : qfield d1 "expected_fours" == f).
  { rewrite Qf1. unfold scaled. rewrite Cs, (qmax_zero_nonneg _ Hf).
    apply one_decimal_fixed, Df. }
  assert (Ex : qfield d1 "expected_sixes" == x).
  { rewrite Qx1. unfold scaled. rewrite Cs, (qmax_zero_nonneg _ Hx).
    apply one_decimal_fixed, Dx. }
  exists d1, d2. split; [exact E1 |]. split; [exact E2 |]. split; [| exact O2].
  intros k Hk. cbn in Hk.
  destruct Hk as [<- | [<- | [<- | [<- | [<- | []]]]]].
  - rewrite Qr2, Er, (qmax_zero_nonneg _ Hr). apply one_decimal_fixed, Dr.
  - rewrite Qb2, Er, Eb. unfold batting_balls. rewrite Cb, (qmax_one_ge _ Hb).
    apply one_decimal_fixed, Db.
  - rewrite Qs2, Er, Eb, Qs1.
    unfold batting_strike_rate. rewrite Cb. reflexivity.
  - rewrite Qf2, Er, Ef, Ex. unfold scaled. rewrite Cs, (qmax_zero_nonneg _ Hf).
    apply one_decimal_fixed, Df.
  - rewrite Qx2, Er, Ef, Ex. unfold scaled. rewrite Cs, (qmax_zero_nonneg _ Hx).
    apply one_decimal_fixed, Dx.
Qed.

Lemma reconcile_batting_idempotent_witness :
  batting_consistent consistent_batting /\
  exists d1 d2,
    ensure_batting_consistency consistent_batting = Ok d1 /\
    ensure_batting_consistency d1 = Ok d2 /\
    (forall k, In k batting_keys -> qfield d2 k == qfield d1 k) /\
    (forall k, ~ In k batting_keys -> Dict.get d2 k = Dict.get d1 k).
Proof.
  assert (C : batting_consistent consistent_batting).
  { unfold batting_consistent, boundary_invariant.
    repeat split; vm_compute; discriminate. }
  split; [exact C |].
  apply (reconcile_batting_idempotent consistent_batting);
    [reflexivity | exact C | exists 300%Z | exists 240%Z | exists 30%Z | exists 15%Z];
    reflexivity.
Defined.

(** * The bowling product *)

(** C5 fails on the code: under T20I a spell of 10 overs at economy 6 comes
    back with overs capped at 4, economy 6 and runs conceded 60, which is
    the product taken before the cap and not [6 * 4]. *)
Theorem over_cap_breaks_runs_conceded :
  ensure_bowling_consistency over_cap_bowling "T20I"
  = Ok [("expected_overs", VInt 4); ("expected_economy", VInt 6);
        ("expected_wickets", VInt 0); ("expected_runs_conceded", VInt 60)] /\
  ~ inject_Z 60 == inject_Z 6 * inject_Z 4.
Proof.
  split; [vm_compute; reflexivity | intros H; vm_compute in H; discriminate H].
Qed.

(** * The role adjuster *)

Lemma get_default_set_same (d : dict) (k : string) (v w : value) :
  Dict.get_default (Dict.set d k v) k w = v.
Proof. unfold Dict.get_default. rewrite get_set_same. reflexivity. Qed.

Lemma section_numeric_get (section field : string) (p p' : dict) :
  Dict.get p' section = Dict.get p section ->
  section_numeric section field p' = section_numeric section field p.
Proof. intros E. unfold section_numeric. rewrite E. reflexivity. Qed.

Section AdjustField.

Variables (section field : string) (p : dict).
Hypothesis Hnum : section_numeric section field p = true.

(** The block with test [test] and replacement [limit] computes, on the
    number [x] read, the number [g x], given what the two operators do. *)
Lemma adjust_field_numeric (test : value -> res bool) (limit : value -> res value)
    (b : bound) (c : Q -> bool) :
  (forall v x, denotes v x -> test v = Ok (c x)) ->
  (forall v x, denotes v x -> c x = true ->
               exists y, limit v = Ok y /\ denotes y (apply_bound b x)) ->
  (forall x, c x = false -> apply_bound b x == x) ->
  exists p',
    adjust_field p section field test limit = Ok p' /\
    section_adjusted b section field p p' /\
    (forall k, k <> section -> Dict.get p' k = Dict.get p k).
Proof.
  intros Htest Hlimit Hkeep.
  unfold adjust_field, section_adjusted, section_numeric, Dict.mem, Dict.get_default in *.
  destruct (Dict.get p section) as [[| | | | | | sub] |] eqn:G; try discriminate.
  - cbn [as_dict bind].
    assert (D : denotes
                  (match Dict.get sub field with Some v => v | None => VInt 0 end)
                  (qfield sub field)).
    { unfold is_numeric, qfield, Dict.get_default, denotes in *.
      destruct (as_num _) as [q |]; [exists q; split; reflexivity | discriminate]. }
    rewrite (Htest _ _ D). cbn [bind].
    destruct (c (qfield sub field)) eqn:C.
    + destruct (Hlimit _ _ D C) as (y & -> & Dy). cbn [bind].
      eexists. split; [reflexivity |]. split.
      * eexists. split; [apply get_set_same |]. split.
        -- destruct Dy as (q & Eq & Ey). unfold qfield.
           rewrite get_default_set_same, Eq. exact Ey.
        -- intros k N. apply get_set_other, String.eqb_neq, N.
      * intros k N. apply get_set_other, String.eqb_neq, N.
    + eexists. split; [reflexivity |]. split.
      * exists sub. split; [exact G |]. split; [| reflexivity].
        symmetry. apply Hkeep, C.
      * reflexivity.
  - eexists. split; [reflexivity |]. split; [exact G | reflexivity].
Qed.

Lemma adjust_field_floor (limit_value : value) (q : Q) :
  denotes limit_value q ->
  exists p',
    adjust_field p section field
      (fun x => py_lt x limit_value) (fun x => py_max x limit_value) = Ok p' /\
    section_adjusted (Floor q) section field p p' /\
    (forall k, k <> section -> Dict.get p' k = Dict.get p k).
Proof.
  intros Dq. apply (adjust_field_numeric _ _ (Floor q) (fun x => Qltb x q)).
  - intros v x Dv. apply (py_lt_num _ _ _ _ Dv Dq).
  - intros v x Dv _. apply (py_max_num _ _ _ _ Dv Dq).
  - intros x C. cbn. unfold qmax. rewrite C. reflexivity.
Qed.

Lemma adjust_field_cap (limit_value : value) (q : Q) :
  denotes limit_value q ->
  exists p',
    adjust_field p section field
      (fun x => py_gt x limit_value) (fun x => py_min x limit_value) = Ok p' /\
    section_adjusted (Cap q) section field p p' /\
    (forall k, k <> section -> Dict.get p' k = Dict.get p k).
Proof.
  intros Dq. apply (adjust_field_numeric _ _ (Cap q) (fun x => Qltb q x)).
  - intros v x Dv. apply (py_gt_num _ _ _ _ Dv Dq).
  - intros v x Dv _. apply (py_min_num _ _ _ _ Dv Dq).
  - intros x C. cbn. unfold qmin. rewrite C. reflexivity.
Qed.

End AdjustField.

Lemma adjust_both (p : dict) (t1 t2 : value -> res bool) (l1 l2 : value -> res value)
    (br bw : bound) :
  block_correct br "batting" "expected_runs" t1 l1 ->
  block_correct bw "bowling" "expected_wickets" t2 l2 ->
  section_numeric "batting" "expected_runs" p = true ->
  section_numeric "bowling" "expected_wickets" p = true ->
  exists p',
    (prediction <- adjust_field p "batting" "expected_runs" t1 l1 ;;
     adjust_field prediction "bowling" "expected_wickets" t2 l2) = Ok p' /\
    section_adjusted br "batting" "expected_runs" p p' /\
    section_adjusted bw "bowling" "expected_wickets" p p' /\
    (forall k, k <> "batting" -> k <> "bowling" -> Dict.get p' k = Dict.get p k).
Proof.
  intros B1 B2 N1 N2.
  destruct (B1 p N1) as (p1 & E1 & A1 & O1).
  assert (G1 : Dict.get p1 "bowling" = Dict.get p "bowling") by (apply O1; discriminate).
  rewrite <- (section_numeric_get _ "expected_wickets" _ _ G1) in N2.
  destruct (B2 p1 N2) as (p2 & E2 & A2 & O2).
  assert (G2 : Dict.get p2 "batting" = Dict.get p1 "batting") by (apply O2; discriminate).
  exists p2. rewrite E1. cbn [bind]. split; [exact E2 |].
  split; [| split].
  - unfold section_adjusted in *. rewrite G2. exact A1.
  - unfold section_adjusted in *. rewrite <- G1. exact A2.
  - intros k Kb Kw. rewrite (O2 k Kw). apply O1, Kb.
Qed.

Lemma role_policy_applied_result (player info prediction : dict) (role : string) :
  Dict.get_default player "personalInformation" (VDict []) = VDict info ->
  Dict.get_default info "role" (VStr "") = VStr role ->
  section_numeric "batting" "expected_runs" prediction = true ->
  section_numeric "bowling" "expected_wickets" prediction = true ->
  exists prediction',
    ensure_player_role_consistency player prediction = Ok prediction' /\
    match policy (classify role) with
    | None => prediction' = prediction
    | Some (runs_bound, wickets_bound) =>
        section_adjusted runs_bound "batting" "expected_runs" prediction prediction' /\
        section_adjusted wickets_bound "bowling" "expected_wickets" prediction prediction' /\
        (forall k, k <> "batting" -> k <> "bowling" ->
                   Dict.get prediction' k = Dict.get prediction k)
    end.
Proof.
  intros Hinfo Hrole N1 N2.
  unfold ensure_player_role_consistency, classify.
  rewrite Hinfo. cbn [as_dict bind]. rewrite Hrole. cbn [py_lower bind].
  destruct (contains "batsman" (lower role)).
  { apply adjust_both; try assumption; intros p N.
    - apply (adjust_field_floor _ _ _ N (VInt 20) 20), denotes_int.
    - apply (adjust_field_cap _ _ _ N (VFloat (1 # 2)) (1 # 2)), denotes_float. }
  destruct (contains "bowler" (lower role)).
  { apply adjust_both; try assumption; intros p N.
    - apply (adjust_field_cap _ _ _ N (VInt 15) 15), denotes_int.
    - apply (adjust_field_floor _ _ _ N (VInt 1) 1), denotes_int. }
  destruct (contains "all-rounder" (lower role)); cbn [orb];
    [| destruct (contains "all rounder" (lower role))].
  1, 2: apply adjust_both; try assumption; intros p N;
    [ apply (adjust_field_floor _ _ _ N (VInt 15) 15), denotes_int
    | apply (adjust_field_floor _ _ _ N (VFloat (1 # 2)) (1 # 2)), denotes_float ].
  exists prediction. split; reflexivity.
Qed.

(** C7.  The role string read from the player record is classified by
    case-insensitive substring match, batsman before bowler before
    all-rounder / all rounder, and the policy table is applied to the
    sub-records that are present: batsman, runs raised to at least 20 and
    wickets lowered to at most 0.5; bowler, runs capped at 15 and wickets
    raised to at least 1; all-rounder, runs floored at 15 and wickets
    floored at 0.5; no match, no adjustment.  Nothing else changes. *)
Theorem role_policy_applied (player info prediction : dict) (role : string) :
  Dict.get_default player "personalInformation" (VDict []) = VDict info ->
  Dict.get_default info "role" (VStr "") = VStr role ->
  section_numeric "batting" "expected_runs" prediction = true ->
  section_numeric "bowling" "expected_wickets" prediction = true ->
  exists prediction',
    ensure_player_role_consistency player prediction = Ok prediction' /\
    match policy (classify role) with
    | None => prediction' = prediction
    | Some (runs_bound, wickets_bound) =>
        section_adjusted runs_bound "batting" "expected_runs" prediction prediction' /\
        section_adjusted wickets_bound "bowling" "expected_wickets" prediction prediction' /\
        (forall k, k <> "batting" -> k <> "bowling" ->
                   Dict.get prediction' k = Dict.get prediction k)
    end.
Proof. exact (role_policy_applied_result player info prediction role). Qed.

Lemma role_policy_applied_witness :
  exists prediction',
    ensure_player_role_consistency nested_role_player two_wickets_prediction
    = Ok prediction' /\
    section_adjusted (Cap (1 # 2)) "bowling" "expected_wickets"
      two_wickets_prediction prediction'.
Proof.
  destruct (role_policy_applied nested_role_player [("role", VStr "Batsman")]
              two_wickets_prediction "Batsman")
    as (p' & E & _ & A & _); try reflexivity.
  exists p'. split; assumption.
Defined.

(** * The match aggregator *)


Lemma is_numeric_denotes (v : value) : is_numeric v = true -> denotes v (numval v).
Proof.
  unfold is_numeric, numval, denotes. destruct (as_num v) as [q |]; [| discriminate].
  intros _. exists q. split; reflexivity.
Qed.

Lemma clamp_scores_total (format_type : string) (scores : dict) :
  forallb (fun kv => is_numeric (snd kv)) scores = true ->
  exists scores',
    clamp_scores format_type scores = Ok scores' /\
    forallb (fun kv => is_numeric (snd kv)) scores' = true.
Proof.
  induction scores as [| [team score] rest IH]; cbn [forallb clamp_scores snd].
  - intros _. exists []. split; reflexivity.
  - intros H. apply andb_prop in H. destruct H as [Hs Hr].
    destruct (IH Hr) as (rest' & E & Hn). rewrite E.
    pose proof (is_numeric_denotes _ Hs) as D.
    repeat first [run_op | run_if].
    all: eexists; (split; [reflexivity |]); cbn [forallb snd]; rewrite Hn, ?andb_true_r;
      try assumption; eapply denotes_is_numeric; eassumption.
Qed.

Lemma clamp_expected_scores_total (mp : dict) (format_type : string) :
  scores_numeric mp = true ->
  exists mp',
    clamp_expected_scores mp format_type = Ok mp' /\
    scores_numeric mp' = true /\
    (forall k, k <> "expected_scores" -> Dict.get mp' k = Dict.get mp k).
Proof.
  unfold scores_numeric, clamp_expected_scores, Dict.get_default. intros H.
  destruct (Dict.get mp "expected_scores") as [[| | | | | | scores] |] eqn:G;
    try discriminate.
  - destruct scores as [| kv scores]; cbn [truthy].
    + exists mp. rewrite G. repeat split.
    + cbn [as_dict bind].
      destruct (clamp_scores_total format_type _ H) as (scores' & -> & Hn). cbn [bind].
      eexists. split; [reflexivity |]. split.
      * rewrite get_set_same. exact Hn.
      * intros k N. apply get_set_other, String.eqb_neq, N.
  - cbn [truthy]. exists mp. rewrite G. repeat split.
Qed.





(** * Probabilities outside the unit interval *)






(** * Where the fields are read *)




(** * Totality on well-typed records *)



Lemma reconcile_player_total (format_type : string) (player : value) :
  member_well_typed player = true ->
  exists player', reconcile_player format_type player = Ok player'.
Proof.
  unfold member_well_typed, reconcile_player, Dict.get_default.
  destruct player as [| | | | | | p]; try discriminate. cbn [as_dict bind].
  destruct (Dict.get p "performance") as [[| | | | | | perf] |] eqn:G; try discriminate.
  2: { intros _. eexists. reflexivity. }
  intros H. apply andb_prop in H. destruct H as [Hbat Hbowl].
  unfold section_well_typed in Hbat, Hbowl.
  cbn [py_in py_getitem bind as_dict]. unfold Dict.mem.
  destruct (Dict.get perf "batting") as [[| | | | | | bat] |] eqn:Gb; try discriminate;
    cbn [bind as_dict].
  - destruct (batting_all_numeric_result bat Hbat) as (bat' & -> & _). cbn [bind].
    cbn [py_in py_getitem bind as_dict]. unfold Dict.mem.
    rewrite (get_set_other perf "batting" "bowling" _ eq_refl).
    destruct (Dict.get perf "bowling") as [[| | | | | | bowl] |] eqn:Gw; try discriminate;
      cbn [bind as_dict].
    + destruct (bowling_numeric_result bowl format_type Hbowl) as (bowl' & -> & _).
      cbn [bind]. eexists. reflexivity.
    + eexists. reflexivity.
  - cbn [py_in py_getitem bind as_dict]. unfold Dict.mem.
    destruct (Dict.get perf "bowling") as [[| | | | | | bowl] |] eqn:Gw; try discriminate;
      cbn [bind as_dict].
    + destruct (bowling_numeric_result bowl format_type Hbowl) as (bowl' & -> & _).
      cbn [bind]. eexists. reflexivity.
    + eexists. reflexivity.
Qed.



Lemma get_default_numeric (probs : dict) (k : string) (default : value) :
  forallb (fun kv => is_numeric (snd kv)) probs = true ->
  is_numeric default = true ->
  is_numeric (Dict.get_default probs k default) = true.
Proof.
  intros H Hd. unfold Dict.get_default.
  induction probs as [| [k' v] rest IH]; cbn [Dict.get]; [exact Hd |].
  cbn [forallb snd] in H. apply andb_prop in H. destruct H as [Hv Hr].
  destruct (String.eqb k k'); [exact Hv | exact (IH Hr)].
Qed.

Lemma normalize_probabilities_total (mp : dict) :
  match_well_typed mp = true ->
  exists mp',
    normalize_probabilities mp = Ok mp' /\
    Dict.get mp' "expected_scores" = Dict.get mp "expected_scores".
Proof.
  unfold match_well_typed. intros H. apply andb_prop in H. destruct H as [_ H].
  unfold normalize_probabilities.
  assert (Ep : exists pr,
             Dict.get_default mp "prediction" (VDict []) = VDict pr /\
             match Dict.get pr "team_probabilities" with
             | None => true
             | Some (VDict probs) => forallb (fun kv => is_numeric (snd kv)) probs
             | Some _ => false
             end = true).
  { unfold Dict.get_default.
    destruct (Dict.get mp "prediction") as [[| | | | | | pr] |]; try discriminate.
    - exists pr. split; [reflexivity | exact H].
    - exists []. split; reflexivity. }
  destruct Ep as (pr & -> & Hp). cbn [as_dict bind].
  assert (Et : exists probs,
             Dict.get_default pr "team_probabilities" (VDict []) = VDict probs /\
             forallb (fun kv => is_numeric (snd kv)) probs = true).
  { unfold Dict.get_default.
    destruct (Dict.get pr "team_probabilities") as [[| | | | | | probs] |];
      try discriminate.
    - exists probs. split; [reflexivity | exact Hp].
    - exists []. split; reflexivity. }
  destruct Et as (probs & -> & Hn).
  destruct probs as [| [t1 v1] [| [t2 v2] [| kv probs]]];
    try (exists mp; split; reflexivity).
  cbn [truthy as_dict bind Dict.keys map fst].
  pose proof (is_numeric_denotes _
                (get_default_numeric _ t1 (VFloat (1 # 2)) Hn eq_refl)) as D1.
  pose proof (is_numeric_denotes _
                (get_default_numeric _ t2 (VFloat (1 # 2)) Hn eq_refl)) as D2.
  set (prob1 := Dict.get_default _ t1 _) in *.
  set (prob2 := Dict.get_default _ t2 _) in *.
  repeat first [run_op | run_if].
  all: eexists; (split; [reflexivity |]); apply get_set_other; reflexivity.
Qed.






(** * Further properties of the bowling reconciler *)










(** * Further properties of the batting reconciler *)




(** X5.  The reconcilers write their own fields only: for numeric records,
    every entry of the batting record under a key other than its five
    fields, and every entry of the bowling record under a key other than its
    four fields, is returned as it was. *)
Theorem reconcilers_keep_other_entries (batting bowling : dict) (format_type : string) :
  numeric_fields batting_keys batting = true ->
  numeric_fields bowling_keys bowling = true ->
  (exists batting',
      ensure_batting_consistency batting = Ok batting' /\
      forall k, ~ In k batting_keys -> Dict.get batting' k = Dict.get batting k) /\
  (exists bowling',
      ensure_bowling_consistency bowling format_type = Ok bowling' /\
      forall k, ~ In k bowling_keys -> Dict.get bowling' k = Dict.get bowling k).
Proof.
  intros Hbat Hbowl. split.
  - destruct (batting_all_numeric_result batting Hbat) as (d' & E & _ & _ & _ & _ & _ & O).
    exists d'. split; assumption.
  - destruct (bowling_numeric_result bowling format_type Hbowl)
      as (d' & E & _ & _ & _ & _ & O).
    exists d'. split; assumption.
Qed.

Lemma reconcilers_keep_other_entries_witness :
  (exists batting',
      ensure_batting_consistency (("player", VStr "X") :: boundary_heavy_batting)
      = Ok batting' /\
      Dict.get batting' "player" = Some (VStr "X")) /\
  (exists bowling',
      ensure_bowling_consistency (("player", VStr "X") :: over_cap_bowling) "ODI"
      = Ok bowling' /\
      Dict.get bowling' "player" = Some (VStr "X")).
Proof.
  destruct (reconcilers_keep_other_entries
              (("player", VStr "X") :: boundary_heavy_batting)
              (("player", VStr "X") :: over_cap_bowling) "ODI")
    as ((b' & E1 & O1) & (w' & E2 & O2)); try reflexivity.
  split.
  - exists b'. split; [exact E1 |]. rewrite O1; [reflexivity |].
    cbn. intuition discriminate.
  - exists w'. split; [exact E2 |]. rewrite O2; [reflexivity |].
    cbn. intuition discriminate.
Defined.

(** ** Malformed fields *)

Lemma py_gt_nonnum_l (a b : value) (y : Q) :
  as_num a = None -> denotes b y -> py_gt a b = Raise TypeError.
Proof.
  intros Ha (q & Eb & _).
  destruct a; try discriminate; destruct b; try discriminate; reflexivity.
Qed.

Lemma py_gt_nonnum_r (a b : value) (x : Q) :
  denotes a x -> as_num b = None -> py_gt a b = Raise TypeError.
Proof.
  intros (q & Ea & _) Hb.
  destruct a; try discriminate; destruct b; try discriminate; reflexivity.
Qed.

Lemma py_truediv_nonnum_l (a b : value) : as_num a = None -> py_truediv a b = Raise TypeError.
Proof. intros Ha. unfold py_truediv. rewrite Ha. reflexivity. Qed.

Lemma py_add_nonnum_l (a b : value) (y : Q) :
  as_num a = None -> denotes b y -> py_add a b = Raise TypeError.
Proof.
  intros Ha (q & Eb & _).
  destruct a; try discriminate; destruct b; try discriminate; reflexivity.
Qed.

Lemma py_add_nonnum_r (a b : value) (x : Q) :
  denotes a x -> as_num b = None -> py_add a b = Raise TypeError.
Proof.
  intros (q & Ea & _) Hb.
  destruct a; try discriminate; destruct b; try discriminate; reflexivity.
Qed.

(** A value that is not a number, times an [int], raises or is again not a
    number (a repeated string or list). *)
Lemma py_mul_nonnum_int (a : value) (n : Z) :
  as_num a = None ->
  py_mul a (VInt n) = Raise TypeError \/
  exists v, py_mul a (VInt n) = Ok v /\ as_num v = None.
Proof.
  intros Ha. destruct a; try discriminate.
  - left. reflexivity.
  - right. eexists. split; reflexivity.
  - right. eexists. split; reflexivity.
  - left. reflexivity.
Qed.

Lemma not_numeric (v : value) : is_numeric v = false -> as_num v = None.
Proof. unfold is_numeric. destruct (as_num v); [discriminate | reflexivity]. Qed.

(** X6.  A malformed field is never read as 0: when the other fields of a
    batting record are numeric or absent, a present non-numeric value under
    [expected_runs], [expected_balls], [expected_fours] or [expected_sixes],
    or under [expected_strike_rate] when the balls are not positive, makes
    the batting reconciler raise [TypeError]. *)
Theorem batting_malformed_field_raises (d : dict) (k : string) :
  In k ["expected_runs"; "expected_balls"; "expected_fours"; "expected_sixes"] \/
  (k = "expected_strike_rate" /\ qfield d "expected_balls" <= 0) ->
  is_numeric (Dict.get_default d k (VInt 0)) = false ->
  (forall k', In k' batting_keys -> k' <> k ->
              is_numeric (Dict.get_default d k' (VInt 0)) = true) ->
  ensure_batting_consistency d = Raise TypeError.
Proof.
  intros Hk Hbad Hok.
  apply not_numeric in Hbad.
  assert (D : forall k', In k' batting_keys -> k' <> k ->
                         denotes (Dict.get_default d k' (VInt 0)) (qfield d k')).
  { intros k' I N. pose proof (is_numeric_denotes _ (Hok k' I N)) as X. exact X. }
  unfold ensure_batting_consistency.
  set (runs := Dict.get_default d "expected_runs" (VInt 0)) in *.
  set (balls := Dict.get_default d "expected_balls" (VInt 0)) in *.
  set (strike_rate := Dict.get_default d "expected_strike_rate" (VInt 0)) in *.
  set (fours := Dict.get_default d "expected_fours" (VInt 0)) in *.
  set (sixes := Dict.get_default d "expected_sixes" (VInt 0)) in *.
  destruct Hk as [[<- | [<- | [<- | [<- | []]]]] | [-> Hb]].
  - (* runs *)
    assert (Db : denotes balls (qfield d "expected_balls")) by (apply D; cbn; intuition discriminate).
    assert (Ds : denotes strike_rate (qfield d "expected_strike_rate"))
      by (apply D; cbn; intuition discriminate).
    assert (Df : denotes fours (qfield d "expected_fours")) by (apply D; cbn; intuition discriminate).
    assert (Dx : denotes sixes (qfield d "expected_sixes")) by (apply D; cbn; intuition discriminate).
    fold runs in Hbad.
    rewrite !(py_truediv_nonnum_l runs _ Hbad).
    repeat first [run_op | run_if]; try reflexivity.
    all: erewrite (py_gt_nonnum_r _ runs) by eauto; reflexivity.
  - (* balls *)
    fold balls in Hbad.
    rewrite (py_gt_nonnum_l balls (VInt 0) 0 Hbad (denotes_int 0)). reflexivity.
  - (* fours *)
    assert (Dr : denotes runs (qfield d "expected_runs")) by (apply D; cbn; intuition discriminate).
    assert (Db : denotes balls (qfield d "expected_balls")) by (apply D; cbn; intuition discriminate).
    assert (Ds : denotes strike_rate (qfield d "expected_strike_rate"))
      by (apply D; cbn; intuition discriminate).
    assert (Dx : denotes sixes (qfield d "expected_sixes")) by (apply D; cbn; intuition discriminate).
    fold fours in Hbad.
    destruct (py_mul_nonnum_int fours 4 Hbad) as [E | (v & E & Nv)]; rewrite E.
    + repeat first [run_op | run_if]; reflexivity.
    + repeat first [run_op | run_if].
      all: erewrite (py_add_nonnum_l v) by eauto; reflexivity.
  - (* sixes *)
    assert (Dr : denotes runs (qfield d "expected_runs")) by (apply D; cbn; intuition discriminate).
    assert (Db : denotes balls (qfield d "expected_balls")) by (apply D; cbn; intuition discriminate).
    assert (Ds : denotes strike_rate (qfield d "expected_strike_rate"))
      by (apply D; cbn; intuition discriminate).
    assert (Df : denotes fours (qfield d "expected_fours")) by (apply D; cbn; intuition discriminate).
    fold sixes in Hbad.
    destruct (py_mul_nonnum_int sixes 6 Hbad) as [E | (v & E & Nv)]; rewrite E.
    + repeat first [run_op | run_if]; reflexivity.
    + repeat first [run_op | run_if].
      all: erewrite (py_add_nonnum_r _ v) by eauto; reflexivity.
  - (* strike rate, balls not positive *)
    assert (Db : denotes balls (qfield d "expected_balls")) by (apply D; cbn; intuition discriminate).
    fold strike_rate in Hbad.
    rewrite (py_gt_num balls (VInt 0) _ 0 Db (denotes_int 0)). cbn [bind].
    rewrite (proj2 (Qltb_ge _ _) Hb).
    rewrite (py_gt_nonnum_l strike_rate (VInt 0) 0 Hbad (denotes_int 0)). reflexivity.
Qed.

Lemma batting_malformed_field_raises_witness :
  ensure_batting_consistency
    [("expected_runs", VInt 20); ("expected_balls", VInt 12); ("expected_fours", VNone)]
  = Raise TypeError.
Proof.
  apply (batting_malformed_field_raises _ "expected_fours").
  - left. cbn. tauto.
  - reflexivity.
  - intros k' I N. cbn in I.
    destruct I as [<- | [<- | [<- | [<- | [<- | []]]]]]; try reflexivity.
    exfalso. apply N. reflexivity.
Defined.

(** * The score bands of the match aggregator *)

Lemma probabilities_match_well_typed (mp : dict) :
  probabilities_well_typed mp = true ->
  match_well_typed (Dict.set mp "expected_scores" (VDict [])) = true.
Proof.
  unfold probabilities_well_typed, match_well_typed, scores_numeric. intros H.
  rewrite get_set_same. cbn [forallb andb].
  rewrite (get_set_other mp "expected_scores" "prediction" _ eq_refl). exact H.
Qed.

Lemma normalize_probabilities_frame (mp : dict) (v : value) :
  forall mp1,
    normalize_probabilities (Dict.set mp "expected_scores" v) = Ok mp1 ->
    exists mp2,
      normalize_probabilities mp = Ok mp2 /\
      Dict.get mp2 "expected_scores" = Dict.get mp "expected_scores".
Proof.
  intros mp1. unfold normalize_probabilities, Dict.get_default.
  rewrite (get_set_other mp "expected_scores" "prediction" v eq_refl).
  destruct (as_dict _) as [pr | e]; cbn [bind]; [| discriminate].
  destruct (truthy _); [| intros _; exists mp; split; reflexivity].
  destruct (as_dict _) as [probs | e]; cbn [bind]; [| discriminate].
  destruct (Dict.keys probs) as [| t1 [| t2 [| t3 ks]]];
    try (intros _; exists mp; split; reflexivity).
  destruct (py_add _ _) as [total | e]; cbn [bind]; [| discriminate].
  destruct (py_gt total (VInt 0)) as [c | e]; cbn [bind]; [| discriminate].
  destruct (if c then _ else _) as [[q1 q2] | e]; cbn [bind]; [| discriminate].
  destruct (py_round q1 3) as [r1 | e]; cbn [bind]; [| discriminate].
  destruct (py_round q2 3) as [r2 | e]; cbn [bind]; [| discriminate].
  destruct (py_max q1 q2) as [m | e]; cbn [bind]; [| discriminate].
  destruct (py_round m 3) as [w | e]; cbn [bind]; [| discriminate].
  intros _. eexists. split; [reflexivity |]. apply get_set_other. reflexivity.
Qed.

Lemma normalize_probabilities_typed (mp : dict) :
  probabilities_well_typed mp = true ->
  exists mp1,
    normalize_probabilities mp = Ok mp1 /\
    Dict.get mp1 "expected_scores" = Dict.get mp "expected_scores".
Proof.
  intros H.
  destruct (normalize_probabilities_total _ (probabilities_match_well_typed mp H))
    as (mp1 & E & _).
  exact (normalize_probabilities_frame mp (VDict []) mp1 E).
Qed.




Lemma py_lt_nonnum_r (a b : value) (x : Q) :
  denotes a x -> as_num b = None -> py_lt a b = Raise TypeError.
Proof.
  intros (q & Ea & _) Hb.
  destruct a; try discriminate; destruct b; try discriminate; reflexivity.
Qed.

Lemma clamp_scores_raises (format_type : string) (scores : dict) :
  score_band format_type <> None ->
  existsb (fun kv => negb (is_numeric (snd kv))) scores = true ->
  clamp_scores format_type scores = Raise TypeError.
Proof.
  unfold score_band. intros Hb.
  induction scores as [| [team score] rest IH]; cbn [existsb clamp_scores snd];
    [discriminate |].
  intros H.
  destruct (is_numeric score) eqn:Hs; cbn [negb orb] in H.
  - rewrite (IH H). pose proof (is_numeric_denotes _ Hs) as D.
    destruct (String.eqb (upper format_type) "T20I");
      [| destruct (String.eqb (upper format_type) "ODI")];
      [| | exfalso; apply Hb; reflexivity]; repeat run_op; reflexivity.
  - apply not_numeric in Hs. unfold py_min.
    rewrite !(py_lt_nonnum_r _ score _ (denotes_int _) Hs).
    destruct (String.eqb (upper format_type) "T20I");
      [| destruct (String.eqb (upper format_type) "ODI")];
      [| | exfalso; apply Hb; reflexivity]; reflexivity.
Qed.

(** X8.  A score that is not a number is an error under a known format:
    when the probabilities are well typed and the format is T20I or ODI, one
    non-numeric entry of [expected_scores] makes the match aggregator raise
    [TypeError]. *)
Theorem malformed_score_raises
    (mp scores : dict) (format_type team : string) (score : value) :
  probabilities_well_typed mp = true ->
  Dict.get mp "expected_scores" = Some (VDict scores) ->
  score_band format_type <> None ->
  In (team, score) scores ->
  is_numeric score = false ->
  ensure_match_prediction_consistency mp format_type = Raise TypeError.
Proof.
  intros Hp Gs Hb Hin Hs. unfold ensure_match_prediction_consistency.
  destruct (normalize_probabilities_typed mp Hp) as (mp1 & -> & G1). cbn [bind].
  rewrite Gs in G1.
  unfold clamp_expected_scores, Dict.get_default. rewrite G1.
  destruct scores as [| kv scores]; [contradiction |].
  cbn [truthy as_dict bind].
  rewrite (clamp_scores_raises format_type (kv :: scores) Hb); [reflexivity |].
  apply existsb_exists. exists (team, score). split; [exact Hin |].
  cbn [snd]. rewrite Hs. reflexivity.
Qed.

Lemma malformed_score_raises_witness :
  ensure_match_prediction_consistency
    [("expected_scores", VDict [("A", VInt 150); ("B", VStr "n/a")])] "ODI"
  = Raise TypeError.
Proof.
  apply (malformed_score_raises _ [("A", VInt 150); ("B", VStr "n/a")] "ODI"
           "B" (VStr "n/a")); try reflexivity.
  - discriminate.
  - right. left. reflexivity.
Defined.

(** * Normalized probabilities *)






(** * The team aggregator *)

Lemma any_named_spec (players : list value) (who : value) :
  forallb member_well_typed players = true ->
  any_named players who = Ok (named players who).
Proof.
  unfold named.
  induction players as [| p rest IH]; cbn [forallb any_named existsb].
  - reflexivity.
  - intros H. apply andb_prop in H. destruct H as [Hp Hr].
    destruct p; try discriminate. cbn [as_dict bind member_name].
    destruct (py_eq _ who); [reflexivity | exact (IH Hr)].
Qed.

Lemma name_at_spec (players : list value) (i : nat) (p : value) :
  forallb member_well_typed players = true ->
  nth_error players i = Some p ->
  name_at players i = Ok (member_name p).
Proof.
  intros H E. unfold name_at. rewrite E.
  rewrite forallb_forall in H. specialize (H p (nth_error_In _ _ E)).
  destruct p; try discriminate. reflexivity.
Qed.

Lemma reconcile_player_spec (format_type : string) (player : value) :
  member_well_typed player = true ->
  exists player',
    reconcile_player format_type player = Ok player' /\
    member_reconciled format_type player player'.
Proof.
  unfold member_well_typed, reconcile_player, member_reconciled, section_reconciled,
    member_section, member_name, Dict.get_default.
  destruct player as [| | | | | | p]; try discriminate. cbn [as_dict bind].
  destruct (Dict.get p "performance") as [[| | | | | | perf] |] eqn:G; try discriminate.
  2: { intros _. unfold Dict.mem. rewrite G. cbn [py_in bind Dict.mem Dict.get].
       eexists. split; [reflexivity |]. cbn iota. rewrite G. repeat split. }
  intros H. apply andb_prop in H. destruct H as [Hbat Hbowl].
  unfold section_well_typed in Hbat, Hbowl.
  cbn [py_in py_getitem bind as_dict]. unfold Dict.mem. rewrite G.
  destruct (Dict.get perf "batting") as [[| | | | | | bat] |] eqn:Gb; try discriminate;
    cbn [bind as_dict].
  - destruct (batting_all_numeric_result bat Hbat) as (bat' & Ebat & _).
    rewrite Ebat. cbn [bind py_in py_getitem as_dict]. unfold Dict.mem.
    rewrite (get_set_other perf "batting" "bowling" _ eq_refl).
    destruct (Dict.get perf "bowling") as [[| | | | | | bowl] |] eqn:Gw; try discriminate;
      cbn [bind as_dict].
    + destruct (bowling_numeric_result bowl format_type Hbowl) as (bowl' & Ebowl & _).
      rewrite Ebowl. cbn [bind]. eexists. split; [reflexivity |].
      cbn iota. dict_lookup.
      split; [reflexivity |]. split; eexists; split; reflexivity.
    + eexists. split; [reflexivity |].
      cbn iota. dict_lookup. rewrite Gw.
      split; [reflexivity |]. split; [eexists; split; reflexivity | reflexivity].
  - cbn [py_in py_getitem bind as_dict]. unfold Dict.mem.
    destruct (Dict.get perf "bowling") as [[| | | | | | bowl] |] eqn:Gw; try discriminate;
      cbn [bind as_dict].
    + destruct (bowling_numeric_result bowl format_type Hbowl) as (bowl' & Ebowl & _).
      rewrite Ebowl. cbn [bind]. eexists. split; [reflexivity |].
      cbn iota. dict_lookup. rewrite Gb.
      split; [reflexivity |]. split; [reflexivity | eexists; split; reflexivity].
    + eexists. split; [reflexivity |].
      cbn iota. dict_lookup. rewrite Gb, Gw. repeat split.
Qed.

Lemma reconcile_players_spec (format_type : string) (players : list value) :
  forallb member_well_typed players = true ->
  exists players',
    reconcile_players format_type players = Ok players' /\
    Forall2 (member_reconciled format_type) players players'.
Proof.
  induction players as [| p rest IH]; cbn [forallb reconcile_players].
  - intros _. exists []. split; [reflexivity | constructor].
  - intros H. apply andb_prop in H. destruct H as [Hp Hr].
    destruct (reconcile_player_spec format_type p Hp) as (p' & -> & R).
    destruct (IH Hr) as (rest' & -> & Rs). cbn [bind].
    eexists. split; [reflexivity |]. constructor; assumption.
Qed.

Lemma fantasy_run (team : dict) (format_type : string) (players : list value) :
  Dict.get team "players" = Some (VList players) ->
  forallb member_well_typed players = true ->
  exists players',
    Forall2 (member_reconciled format_type) players players' /\
    ensure_fantasy_team_consistency team format_type
    = Ok (Dict.set (fst (repaired_vice_captain team
                           (fst (repaired_captain team players)) players))
            "players" (VList players'),
          (size_warning players ++ snd (repaired_captain team players)
           ++ snd (repaired_vice_captain team
                     (fst (repaired_captain team players)) players))%list).
Proof.
  intros G H.
  destruct (reconcile_players_spec format_type players H) as (players' & Ep & R).
  exists players'. split; [exact R |].
  unfold ensure_fantasy_team_consistency, repaired_captain, repaired_vice_captain,
    size_warning.
  assert (Gd : Dict.get_default team "players" (VList []) = VList players)
    by (unfold Dict.get_default; rewrite G; reflexivity).
  cbv zeta. rewrite !Gd. cbn [py_iter bind].
  rewrite !(any_named_spec players _ H). cbn [bind].
  set (captain := Dict.get_default team "captain" (VStr "")).
  set (vice_captain := Dict.get_default team "vice_captain" (VStr "")).
  destruct players as [| p [| q rest]].
  - cbn [named existsb negb andb truthy List.length Nat.ltb Nat.leb bind fst snd].
    rewrite Ep. cbn [bind]. unfold Dict.mem. rewrite G. reflexivity.
  - cbn [truthy List.length Nat.ltb Nat.leb andb fst snd]. rewrite !andb_false_r, andb_true_r.
    destruct (named [p] captain) eqn:C; cbn [negb bind fst snd].
    + rewrite Ep. cbn [bind]. unfold Dict.mem. rewrite G. reflexivity.
    + rewrite (name_at_spec [p] 0 p H eq_refl). cbn [bind].
      rewrite Ep. cbn [bind]. unfold Dict.mem.
      rewrite (get_set_other team "captain" "players" _ eq_refl), G. reflexivity.
  - cbn [truthy List.length Nat.ltb Nat.leb andb fst snd]. rewrite !andb_true_r.
    destruct (named (p :: q :: rest) captain) eqn:C; cbn [negb bind fst snd];
      destruct (named (p :: q :: rest) vice_captain) eqn:V; cbn [negb bind fst snd];
      rewrite ?(name_at_spec (p :: q :: rest) 0 p H eq_refl),
        ?(name_at_spec (p :: q :: rest) 1 q H eq_refl); cbn [bind];
      rewrite ?(name_at_spec (p :: q :: rest) 1 q H eq_refl); cbn [bind];
      rewrite Ep; cbn [bind]; unfold Dict.mem;
      rewrite ?(get_set_other _ "vice_captain" "players" _ eq_refl),
        ?(get_set_other _ "captain" "players" _ eq_refl), G; reflexivity.
Qed.

(** X10.  Captain repair: for a team whose players are well-typed member
    records, a captain who matches the name of some member (or an empty
    team) leaves [captain] as it is and logs no captain warning; a captain
    who matches no member is replaced by the name of the first member, and
    the warning is logged. *)
Theorem captain_repaired (team : dict) (format_type : string) (players : list value) :
  Dict.get team "players" = Some (VList players) ->
  forallb member_well_typed players = true ->
  exists team' log,
    ensure_fantasy_team_consistency team format_type = Ok (team', log) /\
    let captain := Dict.get_default team "captain" (VStr "") in
    (named players captain = true \/ players = [] ->
     Dict.get team' "captain" = Dict.get team "captain" /\
     ~ In (CaptainNotInTeam captain) log) /\
    (forall p rest, players = p :: rest -> named players captain = false ->
     Dict.get team' "captain" = Some (member_name p) /\
     In (CaptainNotInTeam captain) log).
Proof.
  intros G H.
  destruct (fantasy_run team format_type players G H) as (players' & _ & E).
  eexists. eexists. split; [exact E |]. cbv zeta.
  rewrite (get_set_other _ "players" "captain" _ eq_refl).
  unfold repaired_vice_captain, repaired_captain, size_warning.
  set (captain := Dict.get_default team "captain" (VStr "")).
  set (vice_captain := Dict.get_default team "vice_captain" (VStr "")).
  split.
  - intros Hc.
    assert (K : match players with
                | [] => True
                | _ :: _ => named players captain = true
                end).
    { destruct players; [exact I |]. destruct Hc as [Hc | Hc]; [exact Hc | discriminate]. }
    clear Hc.
    destruct players as [| p [| q rest]]; cbn [fst snd];
      try rewrite K; cbn [fst snd];
      try destruct (named (p :: q :: rest) vice_captain); cbn [fst snd];
      rewrite ?(get_set_other _ "vice_captain" "captain" _ eq_refl);
      (split; [reflexivity |]);
      rewrite !in_app_iff; cbn [In];
      destruct (Nat.eqb _ 11); cbn [In]; intuition discriminate.
  - intros p rest -> Hc. rewrite Hc.
    destruct rest as [| q rest]; cbn [fst snd];
      try destruct (named (p :: q :: rest) vice_captain); cbn [fst snd];
      rewrite ?(get_set_other _ "vice_captain" "captain" _ eq_refl), get_set_same;
      (split; [reflexivity |]);
      rewrite !in_app_iff; cbn [In]; right; left; left; reflexivity.
Qed.

Lemma captain_repaired_witness :
  exists team' log,
    ensure_fantasy_team_consistency sample_team "T20I" = Ok (team', log) /\
    Dict.get team' "captain" = Some (VStr "P1") /\
    In (CaptainNotInTeam (VStr "Unknown Player")) log.
Proof.
  destruct (captain_repaired sample_team "T20I"
              [VDict [("name", VStr "P1");
                      ("performance",
                       VDict [("batting", VDict boundary_heavy_batting);
                              ("bowling", VDict over_cap_bowling)])];
               VDict [("name", VStr "P2")]])
    as (team' & log & E & _ & R); try reflexivity.
  destruct (R _ _ eq_refl eq_refl) as [Gc Hin].
  exists team', log. repeat split; assumption.
Defined.

(** X11.  Vice-captain repair: a vice-captain who matches the name of some
    member, or a team of fewer than two players, leaves [vice_captain] as it
    is and logs no vice-captain warning (a lone player is never made
    vice-captain); with two or more players, a vice-captain who matches no
    member is replaced by the name of the second member, with the warning. *)
Theorem vice_captain_repaired (team : dict) (format_type : string) (players : list value) :
  Dict.get team "players" = Some (VList players) ->
  forallb member_well_typed players = true ->
  exists team' log,
    ensure_fantasy_team_consistency team format_type = Ok (team', log) /\
    let vice_captain := Dict.get_default team "vice_captain" (VStr "") in
    (named players vice_captain = true \/ (List.length players < 2)%nat ->
     Dict.get team' "vice_captain" = Dict.get team "vice_captain" /\
     ~ In (ViceCaptainNotInTeam vice_captain) log) /\
    (forall p q rest, players = p :: q :: rest -> named players vice_captain = false ->
     Dict.get team' "vice_captain" = Some (member_name q) /\
     In (ViceCaptainNotInTeam vice_captain) log).
Proof.
  intros G H.
  destruct (fantasy_run team format_type players G H) as (players' & _ & E).
  eexists. eexists. split; [exact E |]. cbv zeta.
  rewrite (get_set_other _ "players" "vice_captain" _ eq_refl).
  unfold repaired_vice_captain, repaired_captain, size_warning.
  set (captain := Dict.get_default team "captain" (VStr "")).
  set (vice_captain := Dict.get_default team "vice_captain" (VStr "")).
  split.
  - intros Hv.
    assert (K : match players with
                | _ :: _ :: _ => named players vice_captain = true
                | _ => True
                end).
    { destruct players as [| p [| q rest]]; try exact I.
      destruct Hv as [Hv | Hv]; [exact Hv | cbn in Hv; lia]. }
    clear Hv.
    destruct players as [| p [| q rest]]; cbn [fst snd];
      try rewrite K; cbn [fst snd];
      try destruct (named _ captain); cbn [fst snd];
      rewrite ?(get_set_other _ "captain" "vice_captain" _ eq_refl);
      (split; [reflexivity |]);
      rewrite !in_app_iff; cbn [In];
      destruct (Nat.eqb _ 11); cbn [In]; intuition discriminate.
  - intros p q rest -> Hv. rewrite Hv. cbn [fst snd].
    rewrite get_set_same. split; [reflexivity |].
    rewrite !in_app_iff; cbn [In]. right; right; left; reflexivity.
Qed.

Lemma vice_captain_repaired_witness :
  exists team' log,
    ensure_fantasy_team_consistency lone_player_team "ODI" = Ok (team', log) /\
    Dict.get team' "vice_captain" = Some (VStr "Nobody") /\
    ~ In (ViceCaptainNotInTeam (VStr "Nobody")) log.
Proof.
  destruct (vice_captain_repaired lone_player_team "ODI" [VDict [("name", VStr "P1")]])
    as (team' & log & E & K & _); try reflexivity.
  destruct K as [Gv Hn]; [right; cbn; lia |].
  exists team', log. repeat split; assumption.
Defined.

(** X12.  The roster size is only reported: a team of well-typed members is
    processed whatever its size, the size warning being logged exactly when
    the number of players is not 11, with that number; and a team without a
    [players] entry is returned unchanged with the warning for 0 players. *)
Theorem roster_size_reported (team : dict) (format_type : string) (players : list value) :
  Dict.get team "players" = Some (VList players) ->
  forallb member_well_typed players = true ->
  (exists team' log,
      ensure_fantasy_team_consistency team format_type = Ok (team', log) /\
      forall n, In (WrongTeamSize n) log <->
                n = List.length players /\ n <> 11%nat) /\
  (forall other,
      Dict.get other "players" = None ->
      ensure_fantasy_team_consistency other format_type = Ok (other, [WrongTeamSize 0])).
Proof.
  intros G H. split.
  - destruct (fantasy_run team format_type players G H) as (players' & _ & E).
    eexists. eexists. split; [exact E |].
    intros n. rewrite !in_app_iff.
    unfold repaired_vice_captain, repaired_captain, size_warning.
    destruct (Nat.eqb (List.length players) 11) eqn:S.
    + apply Nat.eqb_eq in S.
      destruct players as [| p [| q rest]]; cbn [fst snd];
        repeat match goal with |- context [if ?c then _ else _] => destruct c end;
        cbn [fst snd In]; split; try (intuition discriminate);
        intros [-> N]; exfalso; apply N; exact S.
    + apply Nat.eqb_neq in S.
      destruct players as [| p [| q rest]]; cbn [fst snd];
        repeat match goal with |- context [if ?c then _ else _] => destruct c end;
        cbn [fst snd In]; split;
        try (intros [-> _]; left; left; reflexivity);
        intros [[[= <-] | []] | K]; try (split; [reflexivity | exact S]);
        intuition discriminate.
  - intros other Go. unfold ensure_fantasy_team_consistency, Dict.get_default, Dict.mem.
    rewrite Go.
    cbn [py_iter bind any_named negb andb truthy List.length Nat.ltb Nat.leb
         reconcile_players].
    rewrite Go. reflexivity.
Qed.

Lemma roster_size_reported_witness :
  exists team' log,
    ensure_fantasy_team_consistency lone_player_team "T20I" = Ok (team', log) /\
    In (WrongTeamSize 1) log.
Proof.
  destruct (roster_size_reported lone_player_team "T20I" [VDict [("name", VStr "P1")]])
    as ((team' & log & E & W) & _); try reflexivity.
  exists team', log. split; [exact E |]. apply W. split; [reflexivity | discriminate].
Defined.

(** X13.  The team aggregator applies the two reconcilers to every member:
    the returned [players] list has one record per input member, in the
    same order and under the same names, whose [performance.batting] is the
    batting reconciler's result on the member's batting record and whose
    [performance.bowling] is the bowling reconciler's result, for the given
    format, on the member's bowling record; a sub-record that was absent
    stays absent. *)
Theorem members_reconciled (team : dict) (format_type : string) (players : list value) :
  Dict.get team "players" = Some (VList players) ->
  forallb member_well_typed players = true ->
  exists team' log players',
    ensure_fantasy_team_consistency team format_type = Ok (team', log) /\
    Dict.get team' "players" = Some (VList players') /\
    Forall2 (member_reconciled format_type) players players'.
Proof.
  intros G H.
  destruct (fantasy_run team format_type players G H) as (players' & R & E).
  eexists. eexists. exists players'. split; [exact E |].
  split; [apply get_set_same | exact R].
Qed.

Lemma members_reconciled_witness :
  exists team' log players',
    ensure_fantasy_team_consistency sample_team "T20I" = Ok (team', log) /\
    Dict.get team' "players" = Some (VList players') /\
    Forall2 (member_reconciled "T20I")
      [VDict [("name", VStr "P1");
              ("performance",
               VDict [("batting", VDict boundary_heavy_batting);
                      ("bowling", VDict over_cap_bowling)])];
       VDict [("name", VStr "P2")]]
      players'.
Proof.
  apply (members_reconciled sample_team "T20I"); reflexivity.
Defined.

(** * The role adjuster applied twice *)

Lemma adjust_field_settled (p : dict) (section field : string)
    (test : value -> res bool) (limit : value -> res value) :
  settled test section field p ->
  adjust_field p section field test limit = Ok p.
Proof.
  unfold settled, adjust_field, Dict.mem, Dict.get_default.
  destruct (Dict.get p section) as [[| | | | | | sub] |]; try contradiction.
  - intros E. cbn [as_dict bind]. rewrite E. reflexivity.
  - reflexivity.
Qed.

Lemma settled_get (test : value -> res bool) (section field : string) (p p' : dict) :
  Dict.get p' section = Dict.get p section ->
  settled test section field p -> settled test section field p'.
Proof. intros E. unfold settled. rewrite E. exact (fun H => H). Qed.

Lemma adjust_field_settles (section field : string)
    (test : value -> res bool) (limit : value -> res value) (c : Q -> bool) :
  (forall v x, denotes v x -> test v = Ok (c x)) ->
  (forall v x, denotes v x -> c x = true ->
               exists y, limit v = Ok y /\ test y = Ok false) ->
  block_settles section field test limit.
Proof.
  intros Htest Hlimit p Hnum.
  unfold adjust_field, settled, section_numeric, Dict.mem, Dict.get_default in *.
  destruct (Dict.get p section) as [[| | | | | | sub] |] eqn:G; try discriminate.
  - cbn [as_dict bind].
    assert (D : denotes
                  (match Dict.get sub field with Some v => v | None => VInt 0 end)
                  (qfield sub field)).
    { unfold is_numeric, qfield, Dict.get_default, denotes in *.
      destruct (as_num _) as [q |]; [exists q; split; reflexivity | discriminate]. }
    rewrite (Htest _ _ D). cbn [bind].
    destruct (c (qfield sub field)) eqn:C.
    + destruct (Hlimit _ _ D C) as (y & -> & Ty). cbn [bind].
      eexists. split; [reflexivity |]. split.
      * rewrite !get_set_same. exact Ty.
      * intros k N. apply get_set_other, String.eqb_neq, N.
    + exists p. split; [reflexivity |]. split; [| reflexivity].
      rewrite G. rewrite (Htest _ _ D). rewrite C. reflexivity.
  - exists p. split; [reflexivity |]. split; [rewrite G; exact I | reflexivity].
Qed.

Lemma Qltb_irrefl (q : Q) : Qltb q q = false.
Proof. apply (proj2 (Qltb_ge q q)). apply Qle_refl. Qed.

Lemma floor_block_settles (section field : string) (limit_value : value) (q : Q) :
  denotes limit_value q ->
  block_settles section field
    (fun x => py_lt x limit_value) (fun x => py_max x limit_value).
Proof.
  intros Dq. apply (adjust_field_settles _ _ _ _ (fun x => Qltb x q)).
  - intros v x Dv. apply (py_lt_num _ _ _ _ Dv Dq).
  - intros v x Dv C. exists limit_value. split.
    + unfold py_max. rewrite (py_gt_num _ _ _ _ Dq Dv), C. reflexivity.
    + rewrite (py_lt_num _ _ _ _ Dq Dq), Qltb_irrefl. reflexivity.
Qed.

Lemma cap_block_settles (section field : string) (limit_value : value) (q : Q) :
  denotes limit_value q ->
  block_settles section field
    (fun x => py_gt x limit_value) (fun x => py_min x limit_value).
Proof.
  intros Dq. apply (adjust_field_settles _ _ _ _ (fun x => Qltb q x)).
  - intros v x Dv. apply (py_gt_num _ _ _ _ Dv Dq).
  - intros v x Dv C. exists limit_value. split.
    + unfold py_min. rewrite (py_lt_num _ _ _ _ Dq Dv), C. reflexivity.
    + rewrite (py_gt_num _ _ _ _ Dq Dq), Qltb_irrefl. reflexivity.
Qed.

Lemma adjust_both_twice (p : dict) (t1 t2 : value -> res bool) (l1 l2 : value -> res value) :
  block_settles "batting" "expected_runs" t1 l1 ->
  block_settles "bowling" "expected_wickets" t2 l2 ->
  section_numeric "batting" "expected_runs" p = true ->
  section_numeric "bowling" "expected_wickets" p = true ->
  exists p',
    (prediction <- adjust_field p "batting" "expected_runs" t1 l1 ;;
     adjust_field prediction "bowling" "expected_wickets" t2 l2) = Ok p' /\
    (prediction <- adjust_field p' "batting" "expected_runs" t1 l1 ;;
     adjust_field prediction "bowling" "expected_wickets" t2 l2) = Ok p'.
Proof.
  intros B1 B2 N1 N2.
  destruct (B1 p N1) as (p1 & E1 & S1 & O1).
  assert (G1 : Dict.get p1 "bowling" = Dict.get p "bowling") by (apply O1; discriminate).
  rewrite <- (section_numeric_get _ "expected_wickets" _ _ G1) in N2.
  destruct (B2 p1 N2) as (p2 & E2 & S2 & O2).
  assert (G2 : Dict.get p2 "batting" = Dict.get p1 "batting") by (apply O2; discriminate).
  exists p2. rewrite E1. cbn [bind]. split; [exact E2 |].
  rewrite (adjust_field_settled p2 "batting" "expected_runs" t1 l1
             (settled_get _ _ _ _ _ G2 S1)).
  cbn [bind]. apply adjust_field_settled, S2.
Qed.

(** X14.  The role adjuster is idempotent: for a well-typed player record
    and prediction, adjusting the adjusted prediction again returns it
    unchanged. *)
Theorem role_adjustment_idempotent (player prediction : dict) :
  player_well_typed player = true ->
  prediction_well_typed prediction = true ->
  exists prediction',
    ensure_player_role_consistency player prediction = Ok prediction' /\
    ensure_player_role_consistency player prediction' = Ok prediction'.
Proof.
  unfold player_well_typed, prediction_well_typed. intros Hp Hq.
  apply andb_prop in Hq. destruct Hq as [N1 N2].
  unfold ensure_player_role_consistency.
  assert (R : exists info role,
             Dict.get_default player "personalInformation" (VDict []) = VDict info /\
             Dict.get_default info "role" (VStr "") = VStr role).
  { unfold Dict.get_default.
    destruct (Dict.get player "personalInformation") as [[| | | | | | info] |];
      try discriminate.
    - exists info.
      destruct (Dict.get info "role") as [[| | | | role | |] |]; try discriminate; eauto.
    - exists [], "". split; reflexivity. }
  destruct R as (info & role & -> & Hr). cbn [as_dict bind].
  rewrite Hr. cbn [py_lower bind].
  destruct (contains "batsman" (lower role)).
  { apply adjust_both_twice; try assumption.
    - apply (floor_block_settles _ _ (VInt 20) 20), denotes_int.
    - apply (cap_block_settles _ _ (VFloat (1 # 2)) (1 # 2)), denotes_float. }
  destruct (contains "bowler" (lower role)).
  { apply adjust_both_twice; try assumption.
    - apply (cap_block_settles _ _ (VInt 15) 15), denotes_int.
    - apply (floor_block_settles _ _ (VInt 1) 1), denotes_int. }
  destruct (contains "all-rounder" (lower role) || contains "all rounder" (lower role))%bool.
  { apply adjust_both_twice; try assumption.
    - apply (floor_block_settles _ _ (VInt 15) 15), denotes_int.
    - apply (floor_block_settles _ _ (VFloat (1 # 2)) (1 # 2)), denotes_float. }
  exists prediction. split; reflexivity.
Qed.

Lemma role_adjustment_idempotent_witness :
  exists prediction',
    ensure_player_role_consistency nested_role_player two_wickets_prediction
    = Ok prediction' /\
    ensure_player_role_consistency nested_role_player prediction' = Ok prediction'.
Proof.
  apply (role_adjustment_idempotent nested_role_player two_wickets_prediction);
    reflexivity.
Defined.

(** * Ill-typed records *)

Lemma as_dict_raises (v : value) : is_dict v = false -> as_dict v = Raise AttributeError.
Proof. destruct v; try reflexivity. discriminate. Qed.

(** X15.  The role lookup needs a dictionary and a string: a
    [personalInformation] entry that is not a dictionary, or a [role] entry
    inside it that is not a string, makes the role adjuster raise
    [AttributeError], whatever the prediction. *)
Theorem role_lookup_raises (player prediction : dict) (v : value) :
  (Dict.get player "personalInformation" = Some v /\ is_dict v = false) \/
  (exists info,
      Dict.get player "personalInformation" = Some (VDict info) /\
      Dict.get info "role" = Some v /\ is_str v = false) ->
  ensure_player_role_consistency player prediction = Raise AttributeError.
Proof.
  unfold ensure_player_role_consistency, Dict.get_default.
  intros [[G N] | (info & G & Gr & N)]; rewrite G.
  - rewrite (as_dict_raises v N). reflexivity.
  - cbn [as_dict bind]. rewrite Gr. destruct v; try discriminate; reflexivity.
Qed.

Lemma role_lookup_raises_witness :
  ensure_player_role_consistency
    [("personalInformation", VDict [("role", VNone)])] two_wickets_prediction
  = Raise AttributeError.
Proof.
  apply (role_lookup_raises _ _ VNone).
  right. exists [("role", VNone)]. repeat split.
Defined.

(** X16.  A sub-record that is not a dictionary matters only when the role
    is classified: with a [batting] entry that is not a dictionary, the role
    adjuster raises [AttributeError] for a batsman, bowler or all-rounder,
    and returns the prediction as it is for any other role. *)
Theorem ill_typed_batting_section
    (player info prediction : dict) (role : string) (v : value) :
  Dict.get_default player "personalInformation" (VDict []) = VDict info ->
  Dict.get_default info "role" (VStr "") = VStr role ->
  Dict.get prediction "batting" = Some v ->
  is_dict v = false ->
  ensure_player_role_consistency player prediction
  = match policy (classify role) with
    | Some _ => Raise AttributeError
    | None => Ok prediction
    end.
Proof.
  intros Hi Hr G N.
  unfold ensure_player_role_consistency, classify, adjust_field, Dict.mem, Dict.get_default
    in *.
  rewrite Hi. cbn [as_dict bind]. rewrite Hr. cbn [py_lower bind].
  rewrite G, (as_dict_raises v N).
  destruct (contains "batsman" (lower role)); [reflexivity |].
  destruct (contains "bowler" (lower role)); [reflexivity |].
  destruct (contains "all-rounder" (lower role)); [reflexivity |].
  destruct (contains "all rounder" (lower role)); reflexivity.
Qed.

Lemma ill_typed_batting_section_witness :
  ensure_player_role_consistency nested_role_player [("batting", VInt 42)]
  = Raise AttributeError /\
  ensure_player_role_consistency
    [("personalInformation", VDict [("role", VStr "Wicketkeeper")])]
    [("batting", VInt 42)]
  = Ok [("batting", VInt 42)].
Proof.
  split.
  - apply (ill_typed_batting_section nested_role_player [("role", VStr "Batsman")]
             [("batting", VInt 42)] "Batsman" (VInt 42)); reflexivity.
  - apply (ill_typed_batting_section
             [("personalInformation", VDict [("role", VStr "Wicketkeeper")])]
             [("role", VStr "Wicketkeeper")]
             [("batting", VInt 42)] "Wicketkeeper" (VInt 42)); reflexivity.
Defined.

(** X17.  A [team_probabilities] entry that is not a dictionary: when it is
    empty or zero ([None], [0], the empty string or list) the normalization
    is skipped and the prediction is left as it is; when it is anything else
    the match aggregator raises [AttributeError]. *)
Theorem ill_typed_team_probabilities
    (mp pr : dict) (format_type : string) (v : value) :
  Dict.get mp "prediction" = Some (VDict pr) ->
  Dict.get pr "team_probabilities" = Some v ->
  is_dict v = false ->
  scores_numeric mp = true ->
  if truthy v
  then ensure_match_prediction_consistency mp format_type = Raise AttributeError
  else exists mp',
         ensure_match_prediction_consistency mp format_type = Ok mp' /\
         Dict.get mp' "prediction" = Some (VDict pr).
Proof.
  intros Gp Gt N Hs.
  unfold ensure_match_prediction_consistency, normalize_probabilities, Dict.get_default.
  rewrite Gp. cbn [as_dict bind]. rewrite Gt.
  destruct (truthy v).
  - rewrite (as_dict_raises v N). reflexivity.
  - cbn [bind].
    destruct (clamp_expected_scores_total mp format_type Hs) as (mp' & E & _ & O).
    exists mp'. split; [exact E |]. rewrite O by discriminate. exact Gp.
Qed.

Lemma ill_typed_team_probabilities_witness :
  ensure_match_prediction_consistency
    [("prediction", VDict [("team_probabilities", VStr "50/50")])] "T20I"
  = Raise AttributeError.
Proof.
  apply (ill_typed_team_probabilities
           [("prediction", VDict [("team_probabilities", VStr "50/50")])]
           [("team_probabilities", VStr "50/50")] "T20I" (VStr "50/50"));
    reflexivity.
Defined.

Lemma any_named_before_ill_typed (before after : list value) (x who : value) :
  forallb member_well_typed before = true ->
  is_dict x = false ->
  any_named (before ++ x :: after) who
  = if named before who then Ok true else Raise AttributeError.
Proof.
  intros H N. unfold named.
  induction before as [| p rest IH]; cbn [app any_named existsb forallb] in *.
  - rewrite (as_dict_raises x N). reflexivity.
  - apply andb_prop in H. destruct H as [Hp Hr].
    destruct p; try discriminate. cbn [as_dict bind member_name].
    destruct (py_eq _ who); [reflexivity | exact (IH Hr)].
Qed.

Lemma reconcile_players_ill_typed (format_type : string) (before after : list value)
    (x : value) :
  forallb member_well_typed before = true ->
  is_dict x = false ->
  reconcile_players format_type (before ++ x :: after) = Raise AttributeError.
Proof.
  intros H N.
  induction before as [| p rest IH]; cbn [app reconcile_players forallb] in *.
  - unfold reconcile_player. rewrite (as_dict_raises x N). reflexivity.
  - apply andb_prop in H. destruct H as [Hp Hr].
    destruct (reconcile_player_total format_type p Hp) as (p' & ->). cbn [bind].
    rewrite (IH Hr). reflexivity.
Qed.

(** X18.  Ill-typed teams: a member that is not a dictionary, after
    well-typed members, makes the team aggregator raise [AttributeError],
    whoever the captain and vice-captain are; a [players] entry that is
    [None] or a number makes it raise [TypeError]. *)
Theorem ill_typed_team (team : dict) (format_type : string) (v : value) :
  Dict.get team "players" = Some v ->
  (forall before x after,
      v = VList (before ++ x :: after) ->
      forallb member_well_typed before = true ->
      is_dict x = false ->
      ensure_fantasy_team_consistency team format_type = Raise AttributeError) /\
  (v = VNone \/ is_numeric v = true ->
   ensure_fantasy_team_consistency team format_type = Raise TypeError).
Proof.
  intros G.
  assert (Gd : Dict.get_default team "players" (VList []) = v)
    by (unfold Dict.get_default; rewrite G; reflexivity).
  unfold ensure_fantasy_team_consistency. cbv zeta. rewrite !Gd. split.
  - intros before x after -> H N. cbn [py_iter bind].
    rewrite !(any_named_before_ill_typed before after x _ H N).
    destruct (named before _); [| reflexivity]. cbn [bind].
    destruct (named before _); [| reflexivity]. cbn [bind negb andb].
    rewrite (reconcile_players_ill_typed format_type before after x H N). reflexivity.
  - intros [-> | N]; [reflexivity |].
    destruct v; try discriminate; reflexivity.
Qed.

Lemma ill_typed_team_witness :
  ensure_fantasy_team_consistency
    [("players", VList [VDict [("name", VStr "P1")]; VStr "P2"]); ("captain", VStr "P1")]
    "T20I"
  = Raise AttributeError.
Proof.
  destruct (ill_typed_team
              [("players", VList [VDict [("name", VStr "P1")]; VStr "P2"]);
               ("captain", VStr "P1")]
              "T20I" (VList [VDict [("name", VStr "P1")]; VStr "P2"]) eq_refl)
    as [A _].
  apply (A [VDict [("name", VStr "P1")]] (VStr "P2") []); reflexivity.
Defined.
